(** * django_gcp_log_groups/gcp_logging.py: request-grouped logging middleware

    A shallow embedding of the module [gcp_logging.py]: the module-level
    constants computed at import time, the per-request log handler
    [GCPHandler] and the middleware [GCPLoggingMiddleware], followed by the
    properties of the request life cycle (trace derivation, child capture,
    severity aggregation, parent emission, reset). *)

From Stdlib Require Import ZArith String Ascii List DecimalString Lia.
From stdpp Require Import base option list gmap strings.

Local Open Scope string_scope.
Local Open Scope list_scope.
Local Open Scope Z_scope.

(** ** Python built-ins the module relies on *)

Module Py.

(** Values stored in the heterogeneous [REQUEST] dict: [str] or [int]. *)
Inductive value : Type :=
| Str (s : string)
| Int (z : Z).

(** Exceptions that can cross the middleware. *)
Inductive exn : Type :=
| AttributeError (attr : string)
| IndexError
| ValueError
| AppError (what : string).

(** Truthiness of an optional [str]: [None] and the empty string are falsy. *)
Definition truthy (o : option string) : bool :=
  match o with
  | Some (String _ _) => true
  | _ => false
  end.

(** [o or d] for an optional [str] [o] and an integer default [d]. *)
Definition or_int (o : option string) (d : Z) : value :=
  match o with
  | Some (String c s) => Str (String c s)
  | _ => Int d
  end.

(** [s.split(sep)] for a one-character separator. *)
Fixpoint split (sep : ascii) (s : string) : list string :=
  match s with
  | EmptyString => [EmptyString]
  | String c rest =>
      if Ascii.eqb c sep then EmptyString :: split sep rest
      else match split sep rest with
           | [] => [String c EmptyString]
           | w :: ws => String c w :: ws
           end
  end.

(** [str.join] on the empty separator, for a list of one-character strings. *)
Definition join (cs : list ascii) : string := string_of_list_ascii cs.

(** [a < b] on [str]: lexicographic on code points, a proper prefix first. *)
Definition str_lt (a b : string) : bool :=
  match String.compare a b with
  | Lt => true
  | _ => false
  end.

(** The loop of the built-in [min]: keep the first least item. *)
Fixpoint min_from (best : string) (l : list string) : string :=
  match l with
  | [] => best
  | x :: l' => min_from (if str_lt x best then x else best) l'
  end.

(** [min(l)]; [None] stands for the [ValueError] on an empty list. *)
Definition min (l : list string) : option string :=
  match l with
  | [] => None
  | x :: l' => Some (min_from x l')
  end.

(** [s.replace(a, b)] for one-character [a] and [b]. *)
Fixpoint replace (a b : ascii) (s : string) : string :=
  match s with
  | EmptyString => EmptyString
  | String c rest => String (if Ascii.eqb c a then b else c) (replace a b rest)
  end.

(** [s.upper()] for ASCII text: the letters a-z are raised and nothing else
    changes. Outside ASCII, where Python follows Unicode and may change the
    length, this is not [str.upper]; header names are ASCII. *)
Definition upper_char (c : ascii) : ascii :=
  let n := nat_of_ascii c in
  if ((97 <=? n) && (n <=? 122))%nat then ascii_of_nat (n - 32) else c.

Fixpoint upper (s : string) : string :=
  match s with
  | EmptyString => EmptyString
  | String c rest => String (upper_char c) (upper rest)
  end.

End Py.

(** ** The part of the standard [logging] module the code touches *)

Module logging.

Definition CRITICAL : Z := 50.
Definition ERROR : Z := 40.
Definition WARNING : Z := 30.
Definition INFO : Z := 20.
Definition DEBUG : Z := 10.
Definition NOTSET : Z := 0.

(** [logging.getLevelName(level)] for an integer level, with the default
    name table. *)
Definition getLevelName (level : Z) : string :=
  if level =? CRITICAL then "CRITICAL"
  else if level =? ERROR then "ERROR"
  else if level =? WARNING then "WARNING"
  else if level =? INFO then "INFO"
  else if level =? DEBUG then "DEBUG"
  else if level =? NOTSET then "NOTSET"
  else "Level " +:+ NilZero.string_of_int (Z.to_int level).

(** [getattr(logging, name)] restricted to the integer level constants of
    the module; any other name is answered [None], which the caller turns
    into an [AttributeError]. *)
Definition getattr (name : string) : option Z :=
  if String.eqb name "CRITICAL" then Some CRITICAL
  else if String.eqb name "FATAL" then Some CRITICAL
  else if String.eqb name "ERROR" then Some ERROR
  else if String.eqb name "WARNING" then Some WARNING
  else if String.eqb name "WARN" then Some WARNING
  else if String.eqb name "INFO" then Some INFO
  else if String.eqb name "DEBUG" then Some DEBUG
  else if String.eqb name "NOTSET" then Some NOTSET
  else None.

(** A [LogRecord]: [levelname] is set from [levelno] by the constructor.
    [exc_text] is the text [Formatter.formatException] gives for the record's
    [exc_info], [None] for a record without; [stack_info] is the text given
    with [stack_info=True], [None] without. *)
Record LogRecord : Type := mkLogRecord {
  levelno : Z;
  getMessage : string;
  exc_text : option string;
  stack_info : option string
}.

Definition levelname (r : LogRecord) : string := getLevelName (levelno r).

(** The line feed. *)
Definition LF : ascii := ascii_of_nat 10.

(** [s[-1:] != LF] is false: the text ends with a line feed. *)
Fixpoint ends_with_LF (s : string) : bool :=
  match s with
  | EmptyString => false
  | String c EmptyString => Ascii.eqb c LF
  | String _ rest => ends_with_LF rest
  end.

(** One step of [Formatter.format]: a non-empty block is appended on a
    line of its own; [None] and the empty text add nothing. *)
Definition append_block (s : string) (block : option string) : string :=
  match block with
  | Some (String c t) =>
      (if ends_with_LF s then s else s +:+ String LF EmptyString) +:+ String c t
  | _ => s
  end.

(** [Formatter.format(record)] of the default formatter, whose format is the
    message alone: the message, then the exception text, then the stack. *)
Definition Formatter_format (r : LogRecord) : string :=
  append_block (append_block (getMessage r) (exc_text r)) (stack_info r).

End logging.


(** ** Data crossing the module boundary *)

(** [gcplogging.Resource(type=..., labels=...)]; a label read from an unset
    environment variable is [None]. *)
Record Resource : Type := mkResource {
  resource_type : string;
  resource_labels : gmap string (option string)
}.

(** What the middleware reads of a Django [HttpRequest]. *)
Record Request : Type := mkRequest {
  method : string;
  get_full_path : string;
  META : gmap string string
}.

(** What the middleware reads of a Django [HttpResponse]; [response.get(h)]
    is a lookup in its headers. *)
Record Response : Type := mkResponse {
  status_code : Z;
  response_headers : gmap string string
}.

Definition response_get (response : Response) (header : string) : option string :=
  response_headers response !! header.

(** The downstream chain behind [self.get_response(request)], as seen from
    the root logger: the records that reach the root logger's handlers, in
    order, and then either a response or an exception. The chain does not
    catch what a handler raises while it logs. *)
Inductive Downstream : Type :=
| Respond (response : Response)
| Fail (e : Py.exn)
| Log (record : logging.LogRecord) (rest : Downstream).

(** The outcome of a call: a returned value or a raised exception. *)
Inductive result (A : Type) : Type :=
| Ok (a : A)
| Raised (e : Py.exn).
Arguments Ok {A} a.
Arguments Raised {A} e.

(** The keyword arguments of [BackgroundThreadTransport.send]. *)
Record LogEntry (instant : Type) : Type := mkLogEntry {
  message : option string;
  timestamp : instant;
  severity : string;
  resource : Resource;
  labels : option (gmap string string);
  trace : string;
  span_id : option string;
  http_request : option (gmap string Py.value)
}.
Arguments mkLogEntry {instant}.
Arguments message {instant}.
Arguments timestamp {instant}.
Arguments severity {instant}.
Arguments resource {instant}.
Arguments labels {instant}.
Arguments trace {instant}.
Arguments span_id {instant}.
Arguments http_request {instant}.

(** Modelled from the spec: [BackgroundThreadTransport.send] of the module
    [background_thread], which is not part of the sources at hand. The spec
    has it construct a LogEntry and enqueue it, return immediately and never
    raise; delivery keeps the enqueue order. The transport is its queue. *)
Definition BackgroundThreadTransport_send {instant : Type}
    (queue : list (LogEntry instant)) (entry : LogEntry instant) : list (LogEntry instant) :=
  queue ++ [entry].

(** A [GCPHandler] object. [hid] stands for the identity of the object, which
    is what [addHandler] and [removeHandler] compare. *)
Record GCPHandler : Type := mkGCPHandler {
  hid : nat;
  handler_trace : string;
  handler_span : option string;
  handler_level : Z
}.

(** The mutable state the module works on: the root logger ([LOGGER]), the
    module-level list [MLOGLEVELS], the two transports and the positions
    reached in the wall clock and in the random generator. *)
Record World (instant : Type) : Type := mkWorld {
  LOGGER_handlers : list GCPHandler;
  LOGGER_level : Z;
  MLOGLEVELS : list string;
  TRANSPORT_PARENT : option (list (LogEntry instant));
  TRANSPORT_CHILD : list (LogEntry instant);
  ticks : nat;
  draws : nat
}.
Arguments mkWorld {instant}.
Arguments LOGGER_handlers {instant}.
Arguments LOGGER_level {instant}.
Arguments MLOGLEVELS {instant}.
Arguments TRANSPORT_PARENT {instant}.
Arguments TRANSPORT_CHILD {instant}.
Arguments ticks {instant}.
Arguments draws {instant}.

Definition set_handlers {I} (hs : list GCPHandler) (w : World I) : World I :=
  mkWorld hs (LOGGER_level w) (MLOGLEVELS w) (TRANSPORT_PARENT w)
          (TRANSPORT_CHILD w) (ticks w) (draws w).

Definition set_MLOGLEVELS {I} (ls : list string) (w : World I) : World I :=
  mkWorld (LOGGER_handlers w) (LOGGER_level w) ls (TRANSPORT_PARENT w)
          (TRANSPORT_CHILD w) (ticks w) (draws w).

Definition set_TRANSPORT_PARENT {I} (q : option (list (LogEntry I))) (w : World I) : World I :=
  mkWorld (LOGGER_handlers w) (LOGGER_level w) (MLOGLEVELS w) q
          (TRANSPORT_CHILD w) (ticks w) (draws w).

Definition set_TRANSPORT_CHILD {I} (q : list (LogEntry I)) (w : World I) : World I :=
  mkWorld (LOGGER_handlers w) (LOGGER_level w) (MLOGLEVELS w) (TRANSPORT_PARENT w)
          q (ticks w) (draws w).

Definition set_ticks {I} (n : nat) (w : World I) : World I :=
  mkWorld (LOGGER_handlers w) (LOGGER_level w) (MLOGLEVELS w) (TRANSPORT_PARENT w)
          (TRANSPORT_CHILD w) n (draws w).

Definition set_draws {I} (n : nat) (w : World I) : World I :=
  mkWorld (LOGGER_handlers w) (LOGGER_level w) (MLOGLEVELS w) (TRANSPORT_PARENT w)
          (TRANSPORT_CHILD w) (ticks w) n.

(** ** Computations over the world that may raise *)

Definition M (I A : Type) : Type := World I → result A * World I.

Definition ret {I A} (a : A) : M I A := λ w, (Ok a, w).

Definition raise {I A} (e : Py.exn) : M I A := λ w, (Raised e, w).

Definition bind {I A B} (m : M I A) (k : A → M I B) : M I B :=
  λ w, match m w with
       | (Ok a, w') => k a w'
       | (Raised e, w') => (Raised e, w')
       end.

Notation "x <- m ;; k" := (bind m (λ x, k))
  (at level 100, m at next level, right associativity).
Notation "m ;; k" := (bind m (λ _, k))
  (at level 100, right associativity).

(** [[m for x in range(0, n)]] *)
Fixpoint comprehension {I A} (n : nat) (m : M I A) : M I (list A) :=
  match n with
  | O => ret []
  | S n' => x <- m ;; xs <- comprehension n' m ;; ret (x :: xs)
  end.

(** [settings]: the attribute [GCP_LOG_USE_X_HTTP_CLOUD_CONTEXT], [None]
    when [hasattr] answers no, else the truth value of what it holds. *)
Record Settings : Type := mkSettings {
  GCP_LOG_USE_X_HTTP_CLOUD_CONTEXT : option bool
}.

(** ** The severity order of the specification *)

Module Severity.

Inductive t : Type := DEBUG | INFO | WARNING | ERROR | CRITICAL.

(** The level constant of [logging] that carries the severity. *)
Definition levelno (s : t) : Z :=
  match s with
  | DEBUG => logging.DEBUG
  | INFO => logging.INFO
  | WARNING => logging.WARNING
  | ERROR => logging.ERROR
  | CRITICAL => logging.CRITICAL
  end.

Definition name (s : t) : string := logging.getLevelName (levelno s).

(** DEBUG < INFO < WARNING < ERROR < CRITICAL *)
Definition leb (a b : t) : bool := levelno a <=? levelno b.

Definition max (a b : t) : t := if leb a b then b else a.

(** The greatest severity of a list, [None] on the empty list. *)
Definition maximum (l : list t) : option t :=
  match l with
  | [] => None
  | s :: l' => Some (foldl max s l')
  end.



(** A record logged at the severity, without exception or stack text. *)
Definition record (s : t) (msg : string) : logging.LogRecord :=
  logging.mkLogRecord (levelno s) msg None None.

End Severity.

(** ** The inbound trace header, as the specification words it *)

Module Header.

(** The text of [s] up to its first [c], all of [s] when there is none. *)
Fixpoint before (c : ascii) (s : string) : string :=
  match s with
  | EmptyString => EmptyString
  | String a rest => if Ascii.eqb a c then EmptyString else String a (before c rest)
  end.

(** The text of [s] after its first [c], [None] when there is none. *)
Fixpoint after (c : ascii) (s : string) : option string :=
  match s with
  | EmptyString => None
  | String a rest => if Ascii.eqb a c then Some rest else after c rest
  end.

(** The form ["<trace-id>/<span-id>;o=<flag>"]. *)
Definition well_formed (h : string) : Prop :=
  ∃ trace_id span_id flag : string,
    h = trace_id +:+ "/" +:+ span_id +:+ ";o=" +:+ flag.

End Header.

(** ** Sample processes and requests *)

Module Sample.

Definition wall_clock (n : nat) : Z := 1000 + 7 * Z.of_nat n.

Definition format_5f (x : Z) : string :=
  NilZero.string_of_int (Z.to_int x) +:+ ".00000".

Definition random_bits (n : nat) : nat := (7 * n + 3)%nat.

Definition environ : gmap string string := {[ "GOOGLE_CLOUD_PROJECT" := "proj" ]}.

Definition self_emit : Settings := mkSettings None.

Definition external : Settings := mkSettings (Some true).

Definition request (header : option string) : Request :=
  mkRequest "GET" "/items?page=2"
    (match header with
     | Some h => {[ "HTTP_X_CLOUD_TRACE_CONTEXT" := h ]}
     | None => ∅
     end).

Definition ok : Response := mkResponse 200 ∅.

(** A view that logs at INFO, then at WARNING, and answers 200. *)
Definition info_then_warning (_ : Request) : Downstream :=
  Log (Severity.record Severity.INFO "start")
    (Log (Severity.record Severity.WARNING "slow") (Respond ok)).

(** A view that logs at INFO and then raises. *)
Definition raising (_ : Request) : Downstream :=
  Log (Severity.record Severity.INFO "start") (Fail (Py.AppError "boom")).

(** A view that answers 200 without logging. *)
Definition silent (_ : Request) : Downstream := Respond ok.

(** A process behind a proxy, with a log prefix. *)
Definition proxied : gmap string string :=
  <["GROUPED_LOGGING_REMOTE_IP_HEADER" := "x-forwarded-for"]>
    (<["GROUPED_LOGGING_LOG_PREFIX" := "shop"]> environ).

(** A request with a user agent, no referer and no body. *)
Definition browser_request : Request :=
  mkRequest "GET" "/" {[ "HTTP_USER_AGENT" := "curl/8" ]}.

(** Records at DEBUG, INFO and WARNING, in that order. *)
Definition records : list (Severity.t * string) :=
  [(Severity.DEBUG, "noise"); (Severity.INFO, "start"); (Severity.WARNING, "slow")].

End Sample.

(** ** The module [gcp_logging] *)

Section gcp_logging.

(** The environment of the process: floating-point seconds with subtraction
    and the ["%.5f"] conversion, the successive readings of the wall clock
    ([time.time()] and [datetime.datetime.utcnow()]), the successive outputs
    of the random generator, and [os.environ]. *)
Variable float : Type.
Variable float_sub : float → float → float.
Variable format_5f : float → string.
Variable wall_clock : nat → float.
Variable random_bits : nat → nat.
Variable environ : gmap string string.

Local Abbreviation W := (World float).
Local Abbreviation Entry := (LogEntry float).

(** *** Module-level constants (lines 12-50) *)

Definition PROJECT : string :=
  default (default EmptyString (environ !! "GOOGLE_CLOUD_PROJECT"))
          (environ !! "GROUPED_LOGGING_GCP_PROJECT").

Definition REMOTE_IP_HEADER : string :=
  match environ !! "GROUPED_LOGGING_REMOTE_IP_HEADER" with
  | Some (String c s) => "HTTP_" +:+ Py.upper (Py.replace "-" "_" (String c s))
  | _ => "REMOTE_ADDR"
  end.

Definition LOG_PREFIX : option string := environ !! "GROUPED_LOGGING_LOG_PREFIX".

Definition USE_X_HTTP_CLOUD_CONTEXT (settings : Settings) : bool :=
  match GCP_LOG_USE_X_HTTP_CLOUD_CONTEXT settings with
  | Some flag => flag || false
  | None => false
  end.

Definition PARENT_LOG_NAME (settings : Settings) : option string :=
  if negb (USE_X_HTTP_CLOUD_CONTEXT settings) then
    Some (match LOG_PREFIX with
          | Some (String c s) => String c s +:+ "_request_log"
          | _ => "request_log"
          end)
  else None.

Definition CHILD_LOG_NAME : string :=
  match LOG_PREFIX with
  | Some (String c s) => String c s +:+ "_application"
  | _ => "application"
  end.

Definition RESOURCE : Resource :=
  if Py.truthy (environ !! "K_SERVICE") then
    mkResource "cloud_run_revision"
      (<["service_name" := environ !! "K_SERVICE"]>
       (<["revision_name" := environ !! "K_REVISION"]>
        (<["configuration_name" := environ !! "K_CONFIGURATION"]> ∅)))
  else mkResource "gae_app" ∅.

Definition LABELS : option (gmap string string) := None.

(** The world right after import: [LOGGER.setLevel(logging.INFO)], no
    handler of this module yet, [MLOGLEVELS = []], the parent transport only
    in self-emit mode (it stays [None] otherwise). *)
Definition module_world (settings : Settings) : W :=
  mkWorld [] logging.INFO []
          (if negb (USE_X_HTTP_CLOUD_CONTEXT settings) then Some [] else None)
          [] 0%nat 0%nat.

(** *** Effects *)

(** [time.time()] and [datetime.datetime.utcnow()] both read the wall clock. *)
Definition time_time : M float float :=
  λ w, (Ok (wall_clock (ticks w)), set_ticks (S (ticks w)) w).

Definition utcnow : M float float := time_time.

(** [random.choice(seq)]: the item at a random index below [len(seq)]. *)
Definition random_choice (seq : string) : M float ascii :=
  λ w, match String.get (random_bits (draws w) mod String.length seq)%nat seq with
       | Some c => (Ok c, set_draws (S (draws w)) w)
       | None => (Raised Py.IndexError, w)
       end.

(** [MLOGLEVELS.append(x)] and [del MLOGLEVELS[:]] *)
Definition MLOGLEVELS_append (x : string) : M float unit :=
  λ w, (Ok tt, set_MLOGLEVELS (MLOGLEVELS w ++ [x]) w).

Definition MLOGLEVELS_clear : M float unit :=
  λ w, (Ok tt, set_MLOGLEVELS [] w).

(** [TRANSPORT_CHILD.send(...)] with the keyword arguments evaluated by [args]. *)
Definition TRANSPORT_CHILD_send (args : M float Entry) : M float unit :=
  entry <- args ;;
  λ w, (Ok tt, set_TRANSPORT_CHILD (BackgroundThreadTransport_send (TRANSPORT_CHILD w) entry) w).

(** [TRANSPORT_PARENT.send(...)]: the attribute is looked up before the
    arguments are evaluated, and fails on [None]. *)
Definition TRANSPORT_PARENT_send (args : M float Entry) : M float unit :=
  λ w, match TRANSPORT_PARENT w with
       | None => (Raised (Py.AttributeError "send"), w)
       | Some _ =>
           (entry <- args ;;
            λ w', (Ok tt,
                   set_TRANSPORT_PARENT
                     ((λ queue, BackgroundThreadTransport_send queue entry)
                        <$> TRANSPORT_PARENT w') w')) w
       end.

(** *** [class GCPHandler(logging.Handler)] (lines 53-76) *)

(** [GCPHandler(trace, span)]: a new object, distinct from every handler
    the logger holds; [logging.Handler.__init__] leaves its level [NOTSET]. *)
Definition GCPHandler_init (trace : string) (span : option string) : M float GCPHandler :=
  λ w, (Ok (mkGCPHandler (S (max_list (hid <$> LOGGER_handlers w))) trace span logging.NOTSET), w).

Definition setLevel (level : Z) (h : GCPHandler) : GCPHandler :=
  mkGCPHandler (hid h) (handler_trace h) (handler_span h) level.

(** [self.format(record)]: no formatter is ever set on the handler, so the
    default one formats. *)
Definition format (self : GCPHandler) (record : logging.LogRecord) : string :=
  logging.Formatter_format record.

Definition emit (self : GCPHandler) (record : logging.LogRecord) : M float unit :=
  let msg := format self record in
  let SEVERITY := logging.levelname record in
  match logging.getattr (logging.levelname record) with
  | None => raise (Py.AttributeError (logging.levelname record))
  | Some level =>
      λ w,
        if level <? LOGGER_level w then (Ok tt, w)
        else
          (MLOGLEVELS_append SEVERITY ;;
           TRANSPORT_CHILD_send
             (now <- utcnow ;;
              ret (mkLogEntry (Some msg) now SEVERITY RESOURCE LABELS
                              (handler_trace self) (handler_span self) None))) w
  end.

(** *** The root logger *)

(** [Logger.addHandler]: append unless the object is already there. *)
Definition addHandler (h : GCPHandler) : M float unit :=
  λ w, if existsb (λ h', Nat.eqb (hid h') (hid h)) (LOGGER_handlers w)
       then (Ok tt, w)
       else (Ok tt, set_handlers (LOGGER_handlers w ++ [h]) w).

(** [list.remove(x)] by identity: drop the first occurrence. *)
Fixpoint remove_first (id : nat) (hs : list GCPHandler) : list GCPHandler :=
  match hs with
  | [] => []
  | h :: hs' => if Nat.eqb (hid h) id then hs' else h :: remove_first id hs'
  end.

(** [Logger.removeHandler]: remove the object if it is there. *)
Definition removeHandler (h : GCPHandler) : M float unit :=
  λ w, (Ok tt, set_handlers (remove_first (hid h) (LOGGER_handlers w)) w).

(** [Logger.callHandlers]: every handler whose level admits the record
    emits it; an exception of [emit] reaches the logging call. *)
Fixpoint callHandlers_from (hs : list GCPHandler) (record : logging.LogRecord) : M float unit :=
  match hs with
  | [] => ret tt
  | h :: hs' =>
      (if handler_level h <=? logging.levelno record then emit h record else ret tt) ;;
      callHandlers_from hs' record
  end.

Definition callHandlers (record : logging.LogRecord) : M float unit :=
  λ w, callHandlers_from (LOGGER_handlers w) record w.

(** Running the downstream chain: its records go through the root logger. *)
Fixpoint get_response (d : Downstream) : M float Response :=
  match d with
  | Respond response => ret response
  | Fail e => raise e
  | Log record rest => callHandlers record ;; get_response rest
  end.

(** *** [class GCPLoggingMiddleware] (lines 79-156) *)

(** [l[i]], raising [IndexError] out of range. *)
Definition index {A} (l : list A) (i : nat) : M float A :=
  match l !! i with
  | Some x => ret x
  | None => raise Py.IndexError
  end.

Definition lift {A} (r : result A) : M float A := λ w, (r, w).

Definition chars : string := "abcdefghijklmnopqrstuvwxyz1234567890".

(** Lines 84-97 of [__call__]: the trace id, before it gets the project
    prefix, and the span. *)
Definition derive_trace (settings : Settings) (request : Request)
    : M float (string * option string) :=
  let span : option string := None in
  let trace : option string := None in
  let trace :=
    if USE_X_HTTP_CLOUD_CONTEXT settings
    then META request !! "HTTP_X_CLOUD_TRACE_CONTEXT"
    else trace in
  match trace with
  | Some (String c s) =>
      let rawTrace := Py.split "/" (String c s) in
      trace <- index rawTrace 0 ;;
      if (1 <? length rawTrace)%nat then
        second <- index rawTrace 1 ;;
        span <- index (Py.split ";" second) 0 ;;
        ret (trace, Some span)
      else ret (trace, span)
  | _ =>
      picks <- comprehension 32 (random_choice chars) ;;
      ret (Py.join picks, span)
  end.

(** Lines 135-142 of [make_parent_log]: the severity of the parent entry
    from the tracked level names and the response. *)
Definition parent_severity (levels : list string) (response : Response) : result string :=
  if (length levels =? 0)%nat then
    let severity := logging.getLevelName logging.INFO in
    if 500 <=? status_code response then Ok (logging.getLevelName logging.ERROR)
    else if 400 <=? status_code response then Ok (logging.getLevelName logging.WARNING)
    else Ok severity
  else
    match Py.min levels with
    | Some severity => Ok severity
    | None => Raised Py.ValueError
    end.

(** Lines 117-131 of [make_parent_log]: the [REQUEST] dict. *)
Definition make_REQUEST (request : Request) (response : Response) (elapsed : float)
    : gmap string Py.value :=
  let REQUEST : gmap string Py.value :=
    <["requestMethod" := Py.Str (method request)]>
    (<["requestUrl" := Py.Str (get_full_path request)]>
    (<["requestSize" := Py.or_int (META request !! "CONTENT_LENGTH") 0]>
    (<["remoteIp" := Py.Str (default "unknown" (META request !! REMOTE_IP_HEADER))]>
    (<["status" := Py.Int (status_code response)]>
    (<["responseSize" := Py.or_int (response_get response "Content-Length") 0]>
    (<["latency" := Py.Str (format_5f elapsed +:+ "s")]> ∅)))))) in
  let REQUEST :=
    match META request !! "HTTP_USER_AGENT" with
    | Some (String c s) => <["userAgent" := Py.Str (String c s)]> REQUEST
    | _ => REQUEST
    end in
  match META request !! "HTTP_REFERER" with
  | Some (String c s) => <["referer" := Py.Str (String c s)]> REQUEST
  | _ => REQUEST
  end.

Definition make_parent_log (settings : Settings) (trace : string) (span : option string)
    (request : Request) (start_time : float) (response : Response) : M float unit :=
  now <- time_time ;;
  let REQUEST := make_REQUEST request response (float_sub now start_time) in
  severity <- (λ w, lift (parent_severity (MLOGLEVELS w) response) w) ;;
  MLOGLEVELS_clear ;;
  if negb (USE_X_HTTP_CLOUD_CONTEXT settings) then
    TRANSPORT_PARENT_send
      (now <- utcnow ;;
       ret (mkLogEntry None now severity RESOURCE LABELS trace span (Some REQUEST)))
  else ret tt.

(** Lines 98-112 of [__call__], once the trace id and the span are known. *)
Definition call_traced (settings : Settings) (self_get_response : Request → Downstream)
    (request : Request) (trace : string) (span : option string) : M float Response :=
  let trace := "projects/" +:+ PROJECT +:+ "/traces/" +:+ trace in
  start_time <- time_time ;;
  gcp_handler <- GCPHandler_init trace span ;;
  let gcp_handler := setLevel logging.DEBUG gcp_handler in
  addHandler gcp_handler ;;
  response <- get_response (self_get_response request) ;;
  make_parent_log settings trace span request start_time response ;;
  removeHandler gcp_handler ;;
  ret response.

(** [GCPLoggingMiddleware.__call__] *)
Definition call (settings : Settings) (self_get_response : Request → Downstream)
    (request : Request) : M float Response :=
  ts <- derive_trace settings request ;;
  call_traced settings self_get_response request ts.1 ts.2.


(** *** What a synthesized trace id is made of *)

(** The character the [k]-th output of the random generator selects. *)
Definition pick (k : nat) : ascii :=
  default "a"%char (String.get (random_bits k mod String.length chars)%nat chars).

(** The 32 characters selected from position [from] on, joined. *)
Definition synthesized (from : nat) : string := Py.join (pick <$> seq from 32).

(** A lowercase ASCII letter or a digit. *)
Definition alnum (c : ascii) : bool :=
  let n := nat_of_ascii c in
  (((97 <=? n) && (n <=? 122)) || ((48 <=? n) && (n <=? 57)))%nat.

(** The trace as the entries carry it (line 98). *)
Definition full_trace (trace_id : string) : string :=
  "projects/" +:+ PROJECT +:+ "/traces/" +:+ trace_id.

(** The handler [__call__] registers in world [w] for a trace id and a span. *)
Definition request_handler (trace_id : string) (span : option string) (w : W) : GCPHandler :=
  mkGCPHandler (S (max_list (hid <$> LOGGER_handlers w))) (full_trace trace_id) span logging.DEBUG.

(** The world in which the downstream chain runs: the clock read once and
    the request's handler registered last. *)
Definition capturing (trace_id : string) (span : option string) (w : W) : W :=
  set_handlers (LOGGER_handlers w ++ [request_handler trace_id span w])
               (set_ticks (S (ticks w)) w).

(** What a run of handlers leaves alone: the logger, the parent transport
    and the random generator; the clock only moves on. *)
Definition logger_untouched (w w' : W) : Prop :=
  LOGGER_handlers w' = LOGGER_handlers w ∧
  LOGGER_level w' = LOGGER_level w ∧
  TRANSPORT_PARENT w' = TRANSPORT_PARENT w ∧
  draws w' = draws w ∧
  (ticks w ≤ ticks w')%nat.

(** The child entry [emit] sends for a record. *)
Definition child_entry (self : GCPHandler) (record : logging.LogRecord) (now : float) : Entry :=
  mkLogEntry (Some (format self record)) now (logging.levelname record)
             RESOURCE LABELS (handler_trace self) (handler_span self) None.

(** The parent entry [make_parent_log] builds in world [w]. *)
Definition parent_entry (trace : string) (span : option string) (request : Request)
    (start_time : float) (response : Response) (severity : string) (w : W) : Entry :=
  mkLogEntry None (wall_clock (S (ticks w))) severity RESOURCE LABELS trace span
    (Some (make_REQUEST request response (float_sub (wall_clock (ticks w)) start_time))).

(** The world [make_parent_log] leaves when it does not send: the clock
    read once, [MLOGLEVELS] emptied. *)
Definition finalized (w : W) : W := set_MLOGLEVELS [] (set_ticks (S (ticks w)) w).

(** The world is ready for requests when the parent transport exists
    whenever the process emits parent entries itself, as the import leaves it. *)
Definition transports_ready (settings : Settings) (w : W) : Prop :=
  USE_X_HTTP_CLOUD_CONTEXT settings = false → is_Some (TRANSPORT_PARENT w).

(** *** Notions used to state what requests leave behind *)

(** The chain that logs the records [rs] in order, each at a standard
    severity with its message, and then goes on as [finish]. *)
Definition logs (rs : list (Severity.t * string)) (finish : Downstream) : Downstream :=
  foldr (λ r rest, Log (Severity.record r.1 r.2) rest) finish rs.

(** The records of [rs] at or above a level, in order. *)
Definition kept (level : Z) (rs : list (Severity.t * string)) : list (Severity.t * string) :=
  List.filter (λ r, level <=? Severity.levelno r.1) rs.

(** The world after the only registered handler [h] has seen the records
    [rs]: the kept ones tracked and forwarded, one clock reading each. *)
Definition after_logs (h : GCPHandler) (rs : list (Severity.t * string)) (w : W) : W :=
  let ks := kept (LOGGER_level w) rs in
  mkWorld (LOGGER_handlers w) (LOGGER_level w)
    (MLOGLEVELS w ++ ((λ r, Severity.name r.1) <$> ks))
    (TRANSPORT_PARENT w)
    (TRANSPORT_CHILD w ++
       imap (λ i r, child_entry h (Severity.record r.1 r.2) (wall_clock (ticks w + i))) ks)
    (ticks w + length ks) (draws w).

(** An entry as [emit] sends them, and as [make_parent_log] sends them; both
    carry the resource of the process and no labels. *)
Definition child_shaped (e : Entry) : Prop :=
  is_Some (message e) ∧ http_request e = None ∧
  resource e = RESOURCE ∧ labels e = None.

Definition parent_shaped (e : Entry) : Prop :=
  message e = None ∧ is_Some (http_request e) ∧
  resource e = RESOURCE ∧ labels e = None.

(** The entry carries the trace and the span of one of the handlers. *)
Definition tagged_by (hs : list GCPHandler) (e : Entry) : Prop :=
  ∃ h, h ∈ hs ∧ trace e = handler_trace h ∧ span_id e = handler_span h.

(** From [w] to [w'] the child transport only grew, by entries shaped as
    child entries and tagged by handlers of [hs]. *)
Definition forwarded (hs : list GCPHandler) (w w' : W) : Prop :=
  ∃ new,
    TRANSPORT_CHILD w' = TRANSPORT_CHILD w ++ new ∧
    Forall (λ e, child_shaped e ∧ tagged_by hs e) new.

(** The levels that have a name among the constants of [logging]. *)
Definition named_levels : list Z :=
  [logging.NOTSET; logging.DEBUG; logging.INFO; logging.WARNING; logging.ERROR;
   logging.CRITICAL].

(** A lowercase ASCII letter. *)
Definition lowercase (c : ascii) : bool :=
  ((97 <=? nat_of_ascii c) && (nat_of_ascii c <=? 122))%nat.

(** A character of ASCII, and a text made of such characters only. *)
Definition is_ascii (c : ascii) : bool := (nat_of_ascii c <? 128)%nat.

Definition ascii_text (s : string) : bool := forallb is_ascii (list_ascii_of_string s).

(** The worlds a process goes through: the one the import leaves, and the
    one any call of the middleware leaves, whatever the request and the
    downstream chain, whether the call returns or raises. *)
Inductive reachable (settings : Settings) : W → Prop :=
| reachable_import : reachable settings (module_world settings)
| reachable_call (self_get_response : Request → Downstream) (request : Request) (w : W) :
    reachable settings w →
    reachable settings (call settings self_get_response request w).2.

(** What holds of the logger and the transports between requests. *)
Definition steady (settings : Settings) (w : W) : Prop :=
  LOGGER_level w = logging.INFO ∧
  (TRANSPORT_PARENT w = None ↔ USE_X_HTTP_CLOUD_CONTEXT settings = true) ∧
  NoDup (hid <$> LOGGER_handlers w) ∧
  Forall (λ h, handler_level h = logging.DEBUG) (LOGGER_handlers w) ∧
  Forall child_shaped (TRANSPORT_CHILD w) ∧
  Forall parent_shaped (default [] (TRANSPORT_PARENT w)).

(** The worlds a process goes through, with the number of calls that
    raised so far. *)
Inductive history (settings : Settings) : nat → W → Prop :=
| history_import : history settings 0 (module_world settings)
| history_call (self_get_response : Request → Downstream) (request : Request)
    (raised : nat) (w : W) :
    history settings raised w →
    history settings
      (match (call settings self_get_response request w).1 with
       | Ok _ => raised
       | Raised _ => S raised
       end)
      (call settings self_get_response request w).2.

(** ** Properties *)

(** *** Strings *)

Lemma split_before_after (c : ascii) (s : string) :
  Py.split c s =
  Header.before c s ::
    match Header.after c s with
    | Some rest => Py.split c rest
    | None => []
    end.
Proof.
  induction s as [|a s IH]; simpl; [reflexivity|].
  destruct (Ascii.eqb a c); [reflexivity|].
  rewrite IH. reflexivity.
Qed.

Lemma in_append_right (c : ascii) (a b : string) :
  In c (list_ascii_of_string b) → In c (list_ascii_of_string (a +:+ b)).
Proof. intros H. induction a as [|x a IH]; simpl; auto. Qed.

(** A header of the form ["<trace-id>/<span-id>;o=<flag>"] has a semicolon. *)
Lemma well_formed_has_semicolon (h : string) :
  Header.well_formed h → In ";"%char (list_ascii_of_string h).
Proof.
  intros (trace_id & span_id & flag & ->).
  do 3 apply in_append_right. left. reflexivity.
Qed.

Lemma get_in_range (s : string) (n : nat) :
  (n < String.length s)%nat → ∃ c, String.get n s = Some c ∧ In c (list_ascii_of_string s).
Proof.
  revert n. induction s as [|a s IH]; intros n Hn; simpl in *; [lia|].
  destruct n as [|n]; [eauto|].
  destruct (IH n) as (c & Hc & Hin); [lia|]. eauto.
Qed.

Lemma pick_in_chars (k : nat) : In (pick k) (list_ascii_of_string chars).
Proof.
  unfold pick.
  destruct (get_in_range chars (random_bits k mod String.length chars)%nat) as (c & Hc & Hin).
  { apply Nat.mod_upper_bound. discriminate. }
  rewrite Hc. exact Hin.
Qed.

Lemma chars_alnum (c : ascii) : In c (list_ascii_of_string chars) → alnum c = true.
Proof.
  intros Hin.
  assert (H : forallb alnum (list_ascii_of_string chars) = true) by reflexivity.
  rewrite forallb_forall in H. auto.
Qed.

Lemma join_length (cs : list ascii) : String.length (Py.join cs) = length cs.
Proof. induction cs as [|c cs IH]; simpl; congruence. Qed.

Lemma synthesized_length (from : nat) : String.length (synthesized from) = 32%nat.
Proof. unfold synthesized. rewrite join_length, length_fmap, length_seq. reflexivity. Qed.

Lemma synthesized_alnum (from : nat) :
  Forall (λ c, alnum c = true) (list_ascii_of_string (synthesized from)).
Proof.
  unfold synthesized, Py.join. rewrite list_ascii_of_string_of_list_ascii.
  apply Forall_fmap, Forall_forall. intros k _. simpl.
  apply chars_alnum, pick_in_chars.
Qed.

(** *** Running computations *)

Lemma bind_ok {A B} (m : M float A) (k : A → M float B) (w w' : W) (a : A) :
  m w = (Ok a, w') → (x <- m ;; k x) w = k a w'.
Proof. intros H. unfold bind. rewrite H. reflexivity. Qed.

Lemma bind_raised {A B} (m : M float A) (k : A → M float B) (w w' : W) (e : Py.exn) :
  m w = (Raised e, w') → (x <- m ;; k x) w = (Raised e, w').
Proof. intros H. unfold bind. rewrite H. reflexivity. Qed.

Lemma set_draws_same (w : W) : set_draws (draws w) w = w.
Proof. destruct w. reflexivity. Qed.

Lemma random_choice_chars (w : W) :
  random_choice chars w = (Ok (pick (draws w)), set_draws (S (draws w)) w).
Proof.
  unfold random_choice, pick.
  destruct (get_in_range chars (random_bits (draws w) mod String.length chars)%nat)
    as (c & Hc & _).
  { apply Nat.mod_upper_bound. discriminate. }
  rewrite Hc. reflexivity.
Qed.

Lemma comprehension_random_choice (n : nat) (w : W) :
  comprehension n (random_choice chars) w =
  (Ok (pick <$> seq (draws w) n), set_draws (draws w + n) w).
Proof.
  revert w. induction n as [|n IH]; intros w; simpl.
  - rewrite Nat.add_0_r, set_draws_same. reflexivity.
  - erewrite bind_ok by apply random_choice_chars.
    erewrite bind_ok by apply IH.
    destruct w; simpl. unfold ret, set_draws; simpl.
    rewrite Nat.add_succ_r. reflexivity.
Qed.

(** Without a usable header the trace id is synthesized and there is no span. *)
Lemma derive_trace_synthesized (settings : Settings) (request : Request) (w : W) :
  (if USE_X_HTTP_CLOUD_CONTEXT settings
   then Py.truthy (META request !! "HTTP_X_CLOUD_TRACE_CONTEXT")
   else false) = false →
  derive_trace settings request w =
  (Ok (synthesized (draws w), None), set_draws (draws w + 32) w).
Proof.
  intros H. unfold derive_trace.
  assert (Hrun : (picks <- comprehension 32 (random_choice chars) ;;
                  ret (Py.join picks, @None string)) w =
                 (Ok (synthesized (draws w), None), set_draws (draws w + 32) w)).
  { erewrite bind_ok by apply comprehension_random_choice. reflexivity. }
  destruct (USE_X_HTTP_CLOUD_CONTEXT settings); [|exact Hrun].
  destruct (META request !! "HTTP_X_CLOUD_TRACE_CONTEXT") as [[|c s]|];
    first [exact Hrun | discriminate H].
Qed.

(** With a non-empty header in external-propagation mode the header is cut
    at its delimiters, whatever its form. *)
Lemma derive_trace_header (settings : Settings) (request : Request) (h : string) (w : W) :
  USE_X_HTTP_CLOUD_CONTEXT settings = true →
  META request !! "HTTP_X_CLOUD_TRACE_CONTEXT" = Some h →
  h ≠ EmptyString →
  derive_trace settings request w =
  (Ok (Header.before "/" h,
       (λ rest, Header.before ";" (Header.before "/" rest)) <$> Header.after "/" h), w).
Proof.
  intros Hmode Hget Hne. unfold derive_trace. rewrite Hmode, Hget.
  destruct h as [|c s]; [congruence|].
  rewrite (split_before_after "/" (String c s)).
  destruct (Header.after "/" (String c s)) as [rest|]; [|reflexivity].
  rewrite (split_before_after "/" rest).
  cbn [index lookup list_lookup bind ret length Nat.ltb Nat.leb fmap option_fmap option_map].
  rewrite (split_before_after ";" (Header.before "/" rest)).
  reflexivity.
Qed.

(** *** The handler and the logger *)

Lemma emit_standard (self : GCPHandler) (s : Severity.t) (msg : string) (w : W) :
  emit self (Severity.record s msg) w =
  if Severity.levelno s <? LOGGER_level w then (Ok tt, w)
  else (Ok tt,
        set_TRANSPORT_CHILD
          (TRANSPORT_CHILD w ++
             [child_entry self (Severity.record s msg) (wall_clock (ticks w))])
          (set_ticks (S (ticks w))
             (set_MLOGLEVELS (MLOGLEVELS w ++ [Severity.name s]) w))).
Proof.
  destruct s; unfold emit; simpl;
    match goal with |- context [?a <? ?b] => destruct (a <? b) end; reflexivity.
Qed.


Lemma logger_untouched_refl (w : W) : logger_untouched w w.
Proof. unfold logger_untouched. auto with arith. Qed.

Lemma logger_untouched_trans (w1 w2 w3 : W) :
  logger_untouched w1 w2 → logger_untouched w2 w3 → logger_untouched w1 w3.
Proof.
  unfold logger_untouched. intros (A1 & A2 & A3 & A4 & A5) (B1 & B2 & B3 & B4 & B5).
  repeat split; try congruence. lia.
Qed.

Lemma emit_untouched (self : GCPHandler) (record : logging.LogRecord) (w : W) :
  logger_untouched w (emit self record w).2.
Proof.
  unfold emit. destruct (logging.getattr _) as [level|]; simpl.
  - destruct (level <? LOGGER_level w); simpl.
    + apply logger_untouched_refl.
    + destruct w. unfold logger_untouched. simpl. auto with arith.
  - apply logger_untouched_refl.
Qed.

Lemma callHandlers_from_untouched (hs : list GCPHandler) (record : logging.LogRecord) (w : W) :
  logger_untouched w (callHandlers_from hs record w).2.
Proof.
  revert w. induction hs as [|h hs IH]; intros w; simpl.
  - apply logger_untouched_refl.
  - unfold bind.
    destruct (handler_level h <=? logging.levelno record).
    + pose proof (emit_untouched h record w) as He.
      destruct (emit h record w) as [[[]|e] w1]; simpl in *; [|exact He].
      eapply logger_untouched_trans; [exact He|apply IH].
    + simpl. apply IH.
Qed.

Lemma get_response_untouched (d : Downstream) (w : W) :
  logger_untouched w (get_response d w).2.
Proof.
  revert w. induction d as [response|e|record rest IH]; intros w; simpl;
    try apply logger_untouched_refl.
  unfold bind, callHandlers.
  pose proof (callHandlers_from_untouched (LOGGER_handlers w) record w) as Hc.
  destruct (callHandlers_from (LOGGER_handlers w) record w) as [[[]|e] w1]; simpl in *;
    [|exact Hc].
  eapply logger_untouched_trans; [exact Hc|apply IH].
Qed.

(** Handlers never look at the parent transport: a run from a world with
    another parent transport is the same run, with that transport carried
    along. *)
Lemma emit_parent_irrelevant (p : option (list Entry)) (self : GCPHandler)
    (record : logging.LogRecord) (w : W) :
  emit self record (set_TRANSPORT_PARENT p w) =
  ((emit self record w).1, set_TRANSPORT_PARENT p (emit self record w).2).
Proof.
  unfold emit. destruct (logging.getattr _) as [level|]; [|reflexivity].
  destruct w; simpl. destruct (level <? _); reflexivity.
Qed.

Lemma callHandlers_from_parent_irrelevant (p : option (list Entry)) (hs : list GCPHandler)
    (record : logging.LogRecord) (w : W) :
  callHandlers_from hs record (set_TRANSPORT_PARENT p w) =
  ((callHandlers_from hs record w).1,
   set_TRANSPORT_PARENT p (callHandlers_from hs record w).2).
Proof.
  revert w. induction hs as [|h hs IH]; intros w; simpl; [reflexivity|].
  unfold bind. destruct (handler_level h <=? logging.levelno record).
  - rewrite emit_parent_irrelevant.
    destruct (emit h record w) as [[[]|e] w1]; simpl; [apply IH|reflexivity].
  - simpl. apply IH.
Qed.

Lemma get_response_parent_irrelevant (p : option (list Entry)) (d : Downstream) (w : W) :
  get_response d (set_TRANSPORT_PARENT p w) =
  ((get_response d w).1, set_TRANSPORT_PARENT p (get_response d w).2).
Proof.
  revert w. induction d as [response|e|record rest IH]; intros w; simpl;
    try reflexivity.
  unfold bind, callHandlers.
  replace (LOGGER_handlers (set_TRANSPORT_PARENT p w)) with (LOGGER_handlers w)
    by (destruct w; reflexivity).
  rewrite callHandlers_from_parent_irrelevant.
  destruct (callHandlers_from (LOGGER_handlers w) record w) as [[[]|e] w1]; simpl;
    [apply IH|reflexivity].
Qed.

(** The identity of a new handler is not among the registered ones. *)
Lemma fresh_hid_absent (hs : list GCPHandler) :
  existsb (λ h', Nat.eqb (hid h') (S (max_list (hid <$> hs)))) hs = false.
Proof.
  apply not_true_is_false. intros H.
  apply existsb_exists in H as (h' & Hin & Heq).
  apply Nat.eqb_eq in Heq.
  assert (hid h' ≤ max_list (hid <$> hs))%nat.
  { apply max_list_elem_of_le, list_elem_of_fmap. exists h'. split; [reflexivity|].
    apply list_elem_of_In, Hin. }
  lia.
Qed.

Lemma remove_first_last (id : nat) (hs : list GCPHandler) (h : GCPHandler) :
  existsb (λ h', Nat.eqb (hid h') id) hs = false →
  hid h = id →
  remove_first id (hs ++ [h]) = hs.
Proof.
  intros Hfresh Hid. induction hs as [|h' hs IH]; simpl in *.
  - rewrite Hid, Nat.eqb_refl. reflexivity.
  - apply orb_false_elim in Hfresh as [Hh' Hhs].
    rewrite Hh'. f_equal. apply IH, Hhs.
Qed.

(** *** Finalization *)

Lemma min_from_some (l : list string) : (length l =? 0)%nat = false → is_Some (Py.min l).
Proof. destruct l; [discriminate|]. simpl. eauto. Qed.




Lemma parent_severity_returns (levels : list string) (response : Response) :
  ∃ severity, parent_severity levels response = Ok severity.
Proof.
  unfold parent_severity. destruct (length levels =? 0)%nat eqn:Hlen.
  - destruct (500 <=? _); [eauto|]. destruct (400 <=? _); eauto.
  - destruct (min_from_some levels Hlen) as [s Hs]. rewrite Hs. eauto.
Qed.

Lemma make_parent_log_run (settings : Settings) (trace : string) (span : option string)
    (request : Request) (start_time : float) (response : Response) (w : W)
    (severity : string) :
  parent_severity (MLOGLEVELS w) response = Ok severity →
  make_parent_log settings trace span request start_time response w =
  let w1 := set_MLOGLEVELS [] (set_ticks (S (ticks w)) w) in
  if USE_X_HTTP_CLOUD_CONTEXT settings then (Ok tt, w1)
  else match TRANSPORT_PARENT w with
       | None => (Raised (Py.AttributeError "send"), w1)
       | Some queue =>
           (Ok tt,
            set_TRANSPORT_PARENT
              (Some (queue ++ [parent_entry trace span request start_time response severity w]))
              (set_ticks (S (S (ticks w))) w1))
       end.
Proof.
  intros Hsev. unfold make_parent_log, bind, time_time, lift, MLOGLEVELS_clear.
  destruct w as [hs level levels parent child t d]; simpl in *. rewrite Hsev.
  destruct (USE_X_HTTP_CLOUD_CONTEXT settings); simpl; [reflexivity|].
  unfold TRANSPORT_PARENT_send; simpl.
  destruct parent as [queue|]; reflexivity.
Qed.

(** *** The request life cycle *)

Lemma call_traced_run (settings : Settings) (self_get_response : Request → Downstream)
    (request : Request) (trace_id : string) (span : option string) (w : W) :
  call_traced settings self_get_response request trace_id span w =
  match get_response (self_get_response request) (capturing trace_id span w) with
  | (Raised e, w2) => (Raised e, w2)
  | (Ok response, w2) =>
      match make_parent_log settings (full_trace trace_id) span request
                            (wall_clock (ticks w)) response w2 with
      | (Raised e, w3) => (Raised e, w3)
      | (Ok _, w3) =>
          (Ok response,
           set_handlers
             (remove_first (hid (request_handler trace_id span w)) (LOGGER_handlers w3)) w3)
      end
  end.
Proof.
  unfold call_traced, capturing, request_handler, full_trace.
  destruct w as [hs level levels parent child t d].
  unfold bind at 1. unfold time_time at 1. cbn [ticks set_ticks LOGGER_handlers LOGGER_level
    MLOGLEVELS TRANSPORT_PARENT TRANSPORT_CHILD draws].
  unfold bind at 1. unfold GCPHandler_init at 1. cbn [LOGGER_handlers].
  unfold bind at 1. unfold addHandler at 1. cbn [LOGGER_handlers setLevel hid].
  rewrite fresh_hid_absent. cbn [set_handlers LOGGER_handlers LOGGER_level MLOGLEVELS
    TRANSPORT_PARENT TRANSPORT_CHILD ticks draws handler_trace handler_span].
  unfold bind at 1.
  destruct (get_response _ _) as [[response|e] w2]; [|reflexivity].
  unfold bind at 1.
  destruct (make_parent_log _ _ _ _ _ _ _) as [[[]|e] w3]; reflexivity.
Qed.

Lemma capturing_handlers (trace_id : string) (span : option string) (w : W) :
  LOGGER_handlers (capturing trace_id span w) =
  LOGGER_handlers w ++ [request_handler trace_id span w].
Proof. destruct w; reflexivity. Qed.

Lemma capturing_parent (trace_id : string) (span : option string) (w : W) :
  TRANSPORT_PARENT (capturing trace_id span w) = TRANSPORT_PARENT w.
Proof. destruct w; reflexivity. Qed.

Lemma capturing_ticks (trace_id : string) (span : option string) (w : W) :
  ticks (capturing trace_id span w) = S (ticks w).
Proof. destruct w; reflexivity. Qed.

(** The whole of [call_traced] in terms of the run of the downstream chain. *)
Lemma call_traced_outcome (settings : Settings) (self_get_response : Request → Downstream)
    (request : Request) (trace_id : string) (span : option string) (w : W) :
  let downstream := get_response (self_get_response request) (capturing trace_id span w) in
  let w2 := downstream.2 in
  match downstream.1 with
  | Raised e =>
      call_traced settings self_get_response request trace_id span w = (Raised e, w2)
  | Ok response =>
      ∃ severity,
        parent_severity (MLOGLEVELS w2) response = Ok severity ∧
        call_traced settings self_get_response request trace_id span w =
        if USE_X_HTTP_CLOUD_CONTEXT settings
        then (Ok response, set_handlers (LOGGER_handlers w) (finalized w2))
        else match TRANSPORT_PARENT w with
             | None => (Raised (Py.AttributeError "send"), finalized w2)
             | Some queue =>
                 (Ok response,
                  set_handlers (LOGGER_handlers w)
                    (set_TRANSPORT_PARENT
                       (Some (queue ++
                                [parent_entry (full_trace trace_id) span request
                                   (wall_clock (ticks w)) response severity w2]))
                       (set_ticks (S (S (ticks w2))) (finalized w2))))
             end
  end.
Proof.
  intros downstream w2. subst w2.
  pose proof (get_response_untouched (self_get_response request) (capturing trace_id span w))
    as (Hhs & _ & Hparent & _).
  rewrite capturing_handlers in Hhs. rewrite capturing_parent in Hparent.
  rewrite call_traced_run. fold downstream in Hhs, Hparent |- *.
  destruct downstream as [[response|e] w2]; simpl in *; [|reflexivity].
  destruct (parent_severity_returns (MLOGLEVELS w2) response) as [severity Hsev].
  exists severity. split; [exact Hsev|].
  rewrite (make_parent_log_run _ _ _ _ _ _ _ _ Hsev).
  assert (Hrm : remove_first (hid (request_handler trace_id span w)) (LOGGER_handlers w2)
                = LOGGER_handlers w).
  { rewrite Hhs. apply remove_first_last; [apply fresh_hid_absent|reflexivity]. }
  cbv zeta. unfold finalized.
  destruct (USE_X_HTTP_CLOUD_CONTEXT settings).
  - destruct w2; simpl in *. rewrite Hrm. reflexivity.
  - rewrite Hparent. destruct (TRANSPORT_PARENT w) as [queue|]; [|reflexivity].
    destruct w2; simpl in *. rewrite Hrm. reflexivity.
Qed.

Lemma derive_trace_returns (settings : Settings) (request : Request) (w : W) :
  ∃ trace_id span n, derive_trace settings request w = (Ok (trace_id, span), set_draws n w).
Proof.
  destruct (if USE_X_HTTP_CLOUD_CONTEXT settings
            then Py.truthy (META request !! "HTTP_X_CLOUD_TRACE_CONTEXT")
            else false) eqn:Hcase.
  - destruct (USE_X_HTTP_CLOUD_CONTEXT settings) eqn:Hmode; [|discriminate].
    destruct (META request !! "HTTP_X_CLOUD_TRACE_CONTEXT") as [[|c s]|] eqn:Hget;
      try discriminate.
    eexists _, _, (draws w).
    rewrite set_draws_same.
    eapply derive_trace_header; [exact Hmode|exact Hget|discriminate].
  - eexists _, _, _. apply derive_trace_synthesized, Hcase.
Qed.

Lemma call_after_trace (settings : Settings) (self_get_response : Request → Downstream)
    (request : Request) (w w0 : W) (trace_id : string) (span : option string) :
  derive_trace settings request w = (Ok (trace_id, span), w0) →
  call settings self_get_response request w =
  call_traced settings self_get_response request trace_id span w0.
Proof. intros H. unfold call. erewrite bind_ok by exact H. reflexivity. Qed.

Lemma finalized_MLOGLEVELS (w : W) : MLOGLEVELS (finalized w) = [].
Proof. destruct w; reflexivity. Qed.

Lemma make_parent_log_resets (settings : Settings) (trace : string) (span : option string)
    (request : Request) (start_time : float) (response : Response) (w : W) :
  MLOGLEVELS (make_parent_log settings trace span request start_time response w).2 = [].
Proof.
  destruct (parent_severity_returns (MLOGLEVELS w) response) as [severity Hsev].
  rewrite (make_parent_log_run _ _ _ _ _ _ _ _ Hsev). cbv zeta. fold (finalized w).
  destruct (USE_X_HTTP_CLOUD_CONTEXT settings); [apply finalized_MLOGLEVELS|].
  destruct (TRANSPORT_PARENT w); [|apply finalized_MLOGLEVELS].
  destruct w; reflexivity.
Qed.

Lemma make_REQUEST_status (request : Request) (response : Response) (elapsed : float) :
  make_REQUEST request response elapsed !! "status" = Some (Py.Int (status_code response)).
Proof.
  unfold make_REQUEST.
  destruct (META request !! "HTTP_USER_AGENT") as [[|? ?]|];
    destruct (META request !! "HTTP_REFERER") as [[|? ?]|];
    rewrite !lookup_insert_ne by discriminate; apply lookup_insert_eq.
Qed.

Lemma make_REQUEST_latency (request : Request) (response : Response) (elapsed : float) :
  make_REQUEST request response elapsed !! "latency" =
  Some (Py.Str (format_5f elapsed +:+ "s")).
Proof.
  unfold make_REQUEST.
  destruct (META request !! "HTTP_USER_AGENT") as [[|? ?]|];
    destruct (META request !! "HTTP_REFERER") as [[|? ?]|];
    rewrite !lookup_insert_ne by discriminate; apply lookup_insert_eq.
Qed.

Lemma capturing_set_parent (p : option (list Entry)) (trace_id : string)
    (span : option string) (w : W) :
  capturing trace_id span (set_TRANSPORT_PARENT p w) =
  set_TRANSPORT_PARENT p (capturing trace_id span w).
Proof. destruct w; reflexivity. Qed.

(** *** The claims *)

(** C5, as amended. When [MLOGLEVELS] is empty at finalization (no record
    tracked during the request, none left by an earlier request that
    raised), the parent severity comes from the response status alone:
    ERROR from 500 on, WARNING from 400 up to 499, INFO otherwise; in
    self-emit mode this is the severity of the entry sent to the parent
    transport. *)
Theorem C5_status_severity_without_children (settings : Settings) (trace : string)
    (span : option string) (request : Request) (start_time : float)
    (response : Response) (w : W) :
  MLOGLEVELS w = [] →
  ∃ sev,
    parent_severity (MLOGLEVELS w) response = Ok sev ∧
    (500 ≤ status_code response → sev = "ERROR") ∧
    (400 ≤ status_code response < 500 → sev = "WARNING") ∧
    (status_code response < 400 → sev = "INFO") ∧
    (USE_X_HTTP_CLOUD_CONTEXT settings = false →
     ∀ queue, TRANSPORT_PARENT w = Some queue →
       ∃ entry,
         TRANSPORT_PARENT
           (make_parent_log settings trace span request start_time response w).2 =
         Some (queue ++ [entry]) ∧
         severity entry = sev).
Proof.
  intros Hempty.
  destruct (parent_severity_returns (MLOGLEVELS w) response) as [sev Hsev].
  exists sev. split; [exact Hsev|].
  assert (Hval : sev = if 500 <=? status_code response then "ERROR"
                      else if 400 <=? status_code response then "WARNING" else "INFO").
  { rewrite Hempty in Hsev. unfold parent_severity in Hsev.
    change (length (@nil string) =? 0)%nat with true in Hsev.
    change (logging.getLevelName logging.ERROR) with "ERROR" in Hsev.
    change (logging.getLevelName logging.WARNING) with "WARNING" in Hsev.
    change (logging.getLevelName logging.INFO) with "INFO" in Hsev.
    cbv iota zeta in Hsev.
    destruct (500 <=? _); [congruence|]. destruct (400 <=? _); congruence. }
  repeat split.
  - intros H. rewrite Hval. destruct (Z.leb_spec 500 (status_code response)); [reflexivity|lia].
  - intros H. rewrite Hval.
    destruct (Z.leb_spec 500 (status_code response)); [lia|].
    destruct (Z.leb_spec 400 (status_code response)); [reflexivity|lia].
  - intros H. rewrite Hval.
    destruct (Z.leb_spec 500 (status_code response)); [lia|].
    destruct (Z.leb_spec 400 (status_code response)); [lia|reflexivity].
  - intros Hmode queue Hq.
    rewrite (make_parent_log_run _ _ _ _ _ _ _ _ Hsev). cbv zeta. rewrite Hmode, Hq.
    eexists. split; [destruct w; reflexivity|reflexivity].
Qed.

(** C8. Finalization leaves [MLOGLEVELS] empty in both modes, and so does
    every call of the middleware that returns a response: the next request
    starts with nothing tracked. *)
Theorem C8_tracker_empty_after_finalization (settings : Settings)
    (self_get_response : Request → Downstream) (request : Request) (w : W) :
  (∀ trace span start_time response w1,
     MLOGLEVELS (make_parent_log settings trace span request start_time response w1).2 = []) ∧
  (∀ response,
     (call settings self_get_response request w).1 = Ok response →
     MLOGLEVELS (call settings self_get_response request w).2 = []).
Proof.
  split; [intros; apply make_parent_log_resets|].
  intros response.
  destruct (derive_trace_returns settings request w) as (trace_id & span & n & Htrace).
  rewrite (call_after_trace _ _ _ _ _ _ _ Htrace).
  pose proof (call_traced_outcome settings self_get_response request trace_id span
                (set_draws n w)) as Hout.
  cbv zeta in Hout.
  destruct (get_response _ _) as [[response'|e] w2]; simpl in Hout.
  - destruct Hout as (sev & _ & Hrun). rewrite Hrun.
    destruct (USE_X_HTTP_CLOUD_CONTEXT settings).
    + intros _. destruct w2; reflexivity.
    + destruct (TRANSPORT_PARENT w); [|simpl; discriminate].
      intros _. destruct w2; reflexivity.
  - rewrite Hout. simpl. discriminate.
Qed.

(** C10. In self-emit mode (the setting false or unset) the inbound header
    is not read: whatever the request carries, the trace id is the one
    synthesized from the random generator and there is no span. *)
Theorem C10_self_emit_ignores_header (settings : Settings) (request : Request) (w : W) :
  GCP_LOG_USE_X_HTTP_CLOUD_CONTEXT settings ≠ Some true →
  derive_trace settings request w =
  (Ok (synthesized (draws w), None), set_draws (draws w + 32) w).
Proof.
  intros Hmode. apply derive_trace_synthesized.
  unfold USE_X_HTTP_CLOUD_CONTEXT.
  destruct (GCP_LOG_USE_X_HTTP_CLOUD_CONTEXT settings) as [[|]|];
    [contradiction Hmode; reflexivity|reflexivity|reflexivity].
Qed.

(** C9. A call in self-emit mode that returns a response has sent exactly
    one more entry to the parent transport; the entry has no message, and its
    [http_request] holds the status code of the response and, as latency, the
    ["%.5f"] rendering followed by ["s"] of the clock reading taken at
    finalization minus the reading taken when the request started. *)
Theorem C9_one_parent_entry_with_status_and_latency (settings : Settings)
    (self_get_response : Request → Downstream) (request : Request) (w w' : W)
    (queue : list Entry) (response : Response) :
  USE_X_HTTP_CLOUD_CONTEXT settings = false →
  TRANSPORT_PARENT w = Some queue →
  call settings self_get_response request w = (Ok response, w') →
  ∃ entry REQUEST t_end,
    TRANSPORT_PARENT w' = Some (queue ++ [entry]) ∧
    message entry = None ∧
    http_request entry = Some REQUEST ∧
    REQUEST !! "status" = Some (Py.Int (status_code response)) ∧
    REQUEST !! "latency" =
      Some (Py.Str (format_5f (float_sub (wall_clock t_end) (wall_clock (ticks w))) +:+ "s")) ∧
    (ticks w < t_end)%nat ∧
    timestamp entry = wall_clock (S t_end) ∧
    ticks w' = S (S t_end).
Proof.
  intros Hmode Hq Hcall.
  destruct (derive_trace_returns settings request w) as (trace_id & span & n & Htrace).
  rewrite (call_after_trace _ _ _ _ _ _ _ Htrace) in Hcall.
  pose proof (call_traced_outcome settings self_get_response request trace_id span
                (set_draws n w)) as Hout.
  pose proof (get_response_untouched (self_get_response request)
                (capturing trace_id span (set_draws n w))) as (_ & _ & _ & _ & Hticks).
  rewrite capturing_ticks in Hticks.
  cbv zeta in Hout.
  destruct (get_response _ _) as [[response'|e] w2]; simpl in Hout, Hticks.
  - destruct Hout as (sev & _ & Hrun). rewrite Hrun, Hmode, Hq in Hcall.
    injection Hcall as -> <-.
    exists (parent_entry (full_trace trace_id) span request (wall_clock (ticks w))
                         response sev w2),
           (make_REQUEST request response
              (float_sub (wall_clock (ticks w2)) (wall_clock (ticks w)))),
           (ticks w2).
    split; [destruct w, w2; reflexivity|].
    split; [reflexivity|]. split; [reflexivity|].
    split; [apply make_REQUEST_status|]. split; [apply make_REQUEST_latency|].
    split; [lia|]. split; [reflexivity|]. destruct w, w2; reflexivity.
  - rewrite Hout in Hcall. discriminate Hcall.
Qed.

(** In external-propagation mode no call ever changes the parent
    transport; and for the same trace and span, a call in that mode and a
    call in self-emit mode, started from worlds that differ only in the
    parent transport, end with the same result, the same registered
    handlers, the same [MLOGLEVELS] and the same child entries; when the
    call returns, the handlers are those from before the request and
    [MLOGLEVELS] is empty. *)
Lemma external_mode_agrees_with_self_emit (ext self_emit : Settings)
    (self_get_response : Request → Downstream) (request : Request) (w : W) :
  USE_X_HTTP_CLOUD_CONTEXT ext = true →
  USE_X_HTTP_CLOUD_CONTEXT self_emit = false →
  TRANSPORT_PARENT (call ext self_get_response request w).2 = TRANSPORT_PARENT w ∧
  ∀ trace_id span queue,
    let run_ext :=
      call_traced ext self_get_response request trace_id span
                  (set_TRANSPORT_PARENT None w) in
    let run_self :=
      call_traced self_emit self_get_response request trace_id span
                  (set_TRANSPORT_PARENT (Some queue) w) in
    TRANSPORT_PARENT run_ext.2 = None ∧
    run_ext.1 = run_self.1 ∧
    LOGGER_handlers run_ext.2 = LOGGER_handlers run_self.2 ∧
    MLOGLEVELS run_ext.2 = MLOGLEVELS run_self.2 ∧
    TRANSPORT_CHILD run_ext.2 = TRANSPORT_CHILD run_self.2 ∧
    (∀ response, run_ext.1 = Ok response →
       LOGGER_handlers run_ext.2 = LOGGER_handlers w ∧ MLOGLEVELS run_ext.2 = []).
Proof.
  intros Hext Hself. split.
  - destruct (derive_trace_returns ext request w) as (trace_id & span & n & Htrace).
    rewrite (call_after_trace _ _ _ _ _ _ _ Htrace).
    pose proof (call_traced_outcome ext self_get_response request trace_id span
                  (set_draws n w)) as Hout.
    pose proof (get_response_untouched (self_get_response request)
                  (capturing trace_id span (set_draws n w))) as (_ & _ & Hparent & _).
    rewrite capturing_parent in Hparent.
    cbv zeta in Hout.
    destruct (get_response _ _) as [[response|e] w2]; simpl in Hout, Hparent.
    + destruct Hout as (sev & _ & Hrun). rewrite Hrun, Hext.
      destruct w2; simpl in *. exact Hparent.
    + rewrite Hout. exact Hparent.
  - intros trace_id span queue.
    pose proof (call_traced_outcome ext self_get_response request trace_id span
                  (set_TRANSPORT_PARENT None w)) as Hout_ext.
    pose proof (call_traced_outcome self_emit self_get_response request trace_id span
                  (set_TRANSPORT_PARENT (Some queue) w)) as Hout_self.
    pose proof (get_response_untouched (self_get_response request)
                  (capturing trace_id span w)) as (Hhs & _).
    rewrite capturing_handlers in Hhs.
    cbv zeta in Hout_ext, Hout_self |- *.
    rewrite capturing_set_parent, get_response_parent_irrelevant in Hout_ext, Hout_self.
    destruct (get_response _ _) as [[response|e] w2]; simpl in Hout_ext, Hout_self, Hhs.
    + destruct Hout_ext as (sev1 & _ & Hrun_ext).
      destruct Hout_self as (sev2 & _ & Hrun_self).
      rewrite Hrun_ext, Hrun_self, Hext, Hself.
      destruct w, w2; simpl in *. repeat split; reflexivity.
    + rewrite Hout_ext, Hout_self.
      destruct w, w2; simpl in *. repeat split; try reflexivity; discriminate.
Qed.

(** C2, as amended. When the downstream chain returns a response, the call
    returns it with the request's handler unregistered: the logger holds the
    handlers it held before. When the chain raises, the call raises the same
    exception at once, in the world the chain left: the request's handler is
    still registered and the parent transport is as before, so no parent
    entry, of whatever severity, stands for the exception. *)
Theorem C2_handler_unregistered_on_return (settings : Settings)
    (self_get_response : Request → Downstream) (request : Request)
    (trace_id : string) (span : option string) (w : W) :
  transports_ready settings w →
  let downstream := get_response (self_get_response request) (capturing trace_id span w) in
  let run := call_traced settings self_get_response request trace_id span w in
  match downstream.1 with
  | Ok response =>
      run.1 = Ok response ∧ LOGGER_handlers run.2 = LOGGER_handlers w
  | Raised e =>
      run = (Raised e, downstream.2) ∧
      LOGGER_handlers run.2 = LOGGER_handlers w ++ [request_handler trace_id span w] ∧
      TRANSPORT_PARENT run.2 = TRANSPORT_PARENT w
  end.
Proof.
  intros Hready downstream run. subst run.
  pose proof (call_traced_outcome settings self_get_response request trace_id span w) as Hout.
  pose proof (get_response_untouched (self_get_response request)
                (capturing trace_id span w)) as (Hhs & _ & Hparent & _).
  rewrite capturing_handlers in Hhs. rewrite capturing_parent in Hparent.
  cbv zeta in Hout. fold downstream in Hout, Hhs, Hparent.
  destruct downstream as [[response|e] w2]; simpl in *.
  - destruct Hout as (sev & _ & Hrun). rewrite Hrun.
    destruct (USE_X_HTTP_CLOUD_CONTEXT settings) eqn:Hmode.
    + destruct w2; split; reflexivity.
    + destruct (Hready Hmode) as [queue Hq]. rewrite Hq.
      destruct w2; split; reflexivity.
  - rewrite Hout. auto.
Qed.

(** C3, as amended. In external-propagation mode a present, non-empty
    header is cut at its delimiters whatever its form: the trace id is the
    text before the first slash, the span is the text between the first
    slash and the next slash or semicolon, absent when there is no slash;
    nothing is synthesized for it. The synthesized trace id with no span is
    what a request without the header, or with an empty one, gets. In every
    mode and for every request the derivation returns normally. *)
Theorem C3_header_cut_without_validation (settings : Settings) (request : Request)
    (h : string) (w : W) :
  USE_X_HTTP_CLOUD_CONTEXT settings = true →
  META request !! "HTTP_X_CLOUD_TRACE_CONTEXT" = Some h →
  h ≠ EmptyString →
  derive_trace settings request w =
    (Ok (Header.before "/" h,
         (λ rest, Header.before ";" (Header.before "/" rest)) <$> Header.after "/" h), w) ∧
  (∀ request',
     Py.truthy (META request' !! "HTTP_X_CLOUD_TRACE_CONTEXT") = false →
     derive_trace settings request' w =
       (Ok (synthesized (draws w), None), set_draws (draws w + 32) w)) ∧
  ∀ settings' request' w', ∃ ts w'', derive_trace settings' request' w' = (Ok ts, w'').
Proof.
  intros Hmode Hget Hne. split; [apply derive_trace_header; assumption|]. split.
  - intros request' Hfalsy. apply derive_trace_synthesized. rewrite Hmode. exact Hfalsy.
  - intros settings' request' w'.
    destruct (derive_trace_returns settings' request' w') as (trace_id & span & n & H).
    eauto.
Qed.

(** C4, as amended. In external-propagation mode the header
    ["abc123/456;o=1"] gives trace id [abc123] and span [456], and the header
    ["abc123"] gives trace id [abc123] and no span; in any mode a request
    without the header gets a synthesized trace id of exactly 32 characters,
    each a lowercase letter or a digit, and no span. *)
Theorem C4_trace_from_header_in_external_mode (settings any : Settings)
    (verb path : string) (meta : gmap string string) (w : W) :
  USE_X_HTTP_CLOUD_CONTEXT settings = true →
  derive_trace settings
    (mkRequest verb path (<["HTTP_X_CLOUD_TRACE_CONTEXT" := "abc123/456;o=1"]> meta)) w =
    (Ok ("abc123", Some "456"), w) ∧
  derive_trace settings
    (mkRequest verb path (<["HTTP_X_CLOUD_TRACE_CONTEXT" := "abc123"]> meta)) w =
    (Ok ("abc123", None), w) ∧
  ∃ trace_id,
    derive_trace any
      (mkRequest verb path (delete "HTTP_X_CLOUD_TRACE_CONTEXT" meta)) w =
      (Ok (trace_id, None), set_draws (draws w + 32) w) ∧
    String.length trace_id = 32%nat ∧
    Forall (λ c, alnum c = true) (list_ascii_of_string trace_id).
Proof.
  intros Hmode. split; [|split].
  - rewrite (derive_trace_header settings _ "abc123/456;o=1" w Hmode);
      [reflexivity|apply lookup_insert_eq|discriminate].
  - rewrite (derive_trace_header settings _ "abc123" w Hmode);
      [reflexivity|apply lookup_insert_eq|discriminate].
  - exists (synthesized (draws w)).
    split; [|split; [apply synthesized_length|apply synthesized_alnum]].
    apply derive_trace_synthesized. cbn [META]. rewrite lookup_delete_eq.
    destruct (USE_X_HTTP_CLOUD_CONTEXT any); reflexivity.
Qed.

(** *** Further properties: the module-level constants *)

Lemma upper_char_normalised (c : ascii) :
  let c' := Py.upper_char (if Ascii.eqb c "-" then "_"%char else c) in
  c' ≠ "-"%char ∧ lowercase c' = false ∧ (is_ascii c = true → is_ascii c' = true).
Proof.
  destruct c as [b0 b1 b2 b3 b4 b5 b6 b7].
  destruct b0, b1, b2, b3, b4, b5, b6, b7; vm_compute;
    (split; [discriminate|]; split; [reflexivity|]; intros H; first [exact H|reflexivity]).
Qed.

Lemma upper_replace_normalised (v : string) :
  ascii_text v = true →
  String.length (Py.upper (Py.replace "-" "_" v)) = String.length v ∧
  ascii_text (Py.upper (Py.replace "-" "_" v)) = true ∧
  Forall (λ c, c ≠ "-"%char ∧ lowercase c = false)
         (list_ascii_of_string (Py.upper (Py.replace "-" "_" v))).
Proof.
  unfold ascii_text. induction v as [|c v IH]; cbn [list_ascii_of_string forallb];
    [intros _; split; [reflexivity|split; [reflexivity|constructor]]|].
  intros Hv. apply andb_true_iff in Hv as [Hc Hv].
  destruct (IH Hv) as (IHlen & IHascii & IHall).
  destruct (upper_char_normalised c) as (Hdash & Hlow & Hasc).
  cbn [Py.replace Py.upper String.length list_ascii_of_string forallb].
  split; [congruence|]. split.
  - apply andb_true_iff. split; [exact (Hasc Hc)|exact IHascii].
  - constructor; [split; assumption|exact IHall].
Qed.

(** X1. The name under which the client address is looked up. Without the
    environment variable, or with an empty one, it is [REMOTE_ADDR]. With a
    value made of ASCII characters it is [HTTP_] followed by as many
    characters as the value has, all ASCII, none of them a dash or a
    lowercase letter. *)
Theorem X1_remote_ip_header_normalised :
  (Py.truthy (environ !! "GROUPED_LOGGING_REMOTE_IP_HEADER") = false →
   REMOTE_IP_HEADER = "REMOTE_ADDR") ∧
  (∀ v, environ !! "GROUPED_LOGGING_REMOTE_IP_HEADER" = Some v →
        v ≠ EmptyString →
        ascii_text v = true →
        ∃ name,
          REMOTE_IP_HEADER = "HTTP_" +:+ name ∧
          String.length name = String.length v ∧
          ascii_text name = true ∧
          Forall (λ c, c ≠ "-"%char ∧ lowercase c = false) (list_ascii_of_string name)).
Proof.
  unfold REMOTE_IP_HEADER. split.
  - destruct (environ !! _) as [[|c v]|]; first [reflexivity | discriminate].
  - intros v -> Hne Hascii. destruct v as [|c v]; [congruence|].
    exists (Py.upper (Py.replace "-" "_" (String c v))).
    split; [reflexivity|apply upper_replace_normalised, Hascii].
Qed.

Lemma append_cons (x : ascii) (a b : string) : String x a +:+ b = String x (a +:+ b).
Proof. reflexivity. Qed.

Lemma append_cancel_left (a b c : string) : a +:+ b = a +:+ c → b = c.
Proof.
  induction a as [|x a IH]; [auto|].
  rewrite !append_cons. intros H. injection H as H. auto.
Qed.

Lemma append_assoc (a b c : string) : (a +:+ b) +:+ c = a +:+ (b +:+ c).
Proof.
  induction a as [|x a IH]; [reflexivity|].
  rewrite !append_cons, IH. reflexivity.
Qed.

(** X2. When the parent log has a name, it and the child log name are
    [request_log] and [application], each preceded by the configured prefix
    and an underscore when a non-empty prefix is configured and by nothing
    otherwise; the two names differ. *)
Theorem X2_log_names_distinct (settings : Settings) (parent_name : string) :
  PARENT_LOG_NAME settings = Some parent_name →
  (∀ p, LOG_PREFIX = Some p → p ≠ EmptyString →
        parent_name = p +:+ "_request_log" ∧ CHILD_LOG_NAME = p +:+ "_application") ∧
  (Py.truthy LOG_PREFIX = false →
   parent_name = "request_log" ∧ CHILD_LOG_NAME = "application") ∧
  parent_name ≠ CHILD_LOG_NAME.
Proof.
  unfold PARENT_LOG_NAME, CHILD_LOG_NAME.
  destruct (negb _); [|discriminate]. intros H. injection H as <-.
  destruct LOG_PREFIX as [[|c v]|].
  - split; [intros p Hp Hne; congruence|]. split; [auto|discriminate].
  - split; [intros p Hp Hne; injection Hp as <-; auto|].
    split; [discriminate|].
    intros H. apply append_cancel_left in H. discriminate H.
  - split; [intros p Hp; discriminate Hp|]. split; [auto|discriminate].
Qed.

(** *** Further properties: the [REQUEST] dict *)

Lemma make_REQUEST_lookup_base (request : Request) (response : Response) (elapsed : float)
    (key : string) :
  key ≠ "userAgent" → key ≠ "referer" →
  make_REQUEST request response elapsed !! key =
  (<["requestMethod" := Py.Str (method request)]>
   (<["requestUrl" := Py.Str (get_full_path request)]>
   (<["requestSize" := Py.or_int (META request !! "CONTENT_LENGTH") 0]>
   (<["remoteIp" := Py.Str (default "unknown" (META request !! REMOTE_IP_HEADER))]>
   (<["status" := Py.Int (status_code response)]>
   (<["responseSize" := Py.or_int (response_get response "Content-Length") 0]>
   (<["latency" := Py.Str (format_5f elapsed +:+ "s")]>
      (∅ : gmap string Py.value)))))))) !! key.
Proof.
  intros Hua Hre. unfold make_REQUEST.
  destruct (META request !! "HTTP_USER_AGENT") as [[|? ?]|];
    destruct (META request !! "HTTP_REFERER") as [[|? ?]|];
    repeat first [ rewrite (lookup_insert_ne _ "userAgent") by congruence
                 | rewrite (lookup_insert_ne _ "referer") by congruence ];
    reflexivity.
Qed.

(** X3. The optional keys of [REQUEST]. [userAgent] is present exactly when
    the request has a non-empty [HTTP_USER_AGENT], and then holds it;
    [referer] likewise for [HTTP_REFERER]; neither disturbs the other. *)
Theorem X3_request_optional_keys (request : Request) (response : Response)
    (elapsed : float) :
  let REQUEST := make_REQUEST request response elapsed in
  (Py.truthy (META request !! "HTTP_USER_AGENT") = false → REQUEST !! "userAgent" = None) ∧
  (∀ ua, META request !! "HTTP_USER_AGENT" = Some ua → ua ≠ EmptyString →
         REQUEST !! "userAgent" = Some (Py.Str ua)) ∧
  (Py.truthy (META request !! "HTTP_REFERER") = false → REQUEST !! "referer" = None) ∧
  (∀ ref, META request !! "HTTP_REFERER" = Some ref → ref ≠ EmptyString →
          REQUEST !! "referer" = Some (Py.Str ref)).
Proof.
  cbv zeta. unfold make_REQUEST.
  destruct (META request !! "HTTP_USER_AGENT") as [[|c1 s1]|];
    destruct (META request !! "HTTP_REFERER") as [[|c2 s2]|];
    repeat split; intros;
    repeat match goal with
           | H : Py.truthy _ = false |- _ => discriminate H
           | H : Some _ = Some _ |- _ => injection H as <-
           | H : None = Some _ |- _ => discriminate H
           | H : EmptyString ≠ EmptyString |- _ => congruence
           end;
    rewrite ?lookup_insert_eq; rewrite ?lookup_insert_ne by discriminate;
    rewrite ?lookup_insert_eq; rewrite ?lookup_insert_ne by discriminate;
    first [reflexivity | apply lookup_empty].
Qed.

(** X4. Defaults in [REQUEST]. The two sizes are the integer 0 when their
    header is missing or empty and the header text otherwise. The client
    address is [unknown] only when the request lacks the configured key: an
    empty value is kept as it is. *)
Theorem X4_request_defaults (request : Request) (response : Response) (elapsed : float) :
  let REQUEST := make_REQUEST request response elapsed in
  (Py.truthy (META request !! "CONTENT_LENGTH") = false →
   REQUEST !! "requestSize" = Some (Py.Int 0)) ∧
  (∀ n, META request !! "CONTENT_LENGTH" = Some n → n ≠ EmptyString →
        REQUEST !! "requestSize" = Some (Py.Str n)) ∧
  (Py.truthy (response_get response "Content-Length") = false →
   REQUEST !! "responseSize" = Some (Py.Int 0)) ∧
  (∀ n, response_get response "Content-Length" = Some n → n ≠ EmptyString →
        REQUEST !! "responseSize" = Some (Py.Str n)) ∧
  (META request !! REMOTE_IP_HEADER = None → REQUEST !! "remoteIp" = Some (Py.Str "unknown")) ∧
  (∀ ip, META request !! REMOTE_IP_HEADER = Some ip →
         REQUEST !! "remoteIp" = Some (Py.Str ip)).
Proof.
  cbv zeta.
  rewrite !make_REQUEST_lookup_base by discriminate.
  rewrite !lookup_insert_ne by discriminate. rewrite !lookup_insert_eq.
  rewrite (lookup_insert_ne _ "requestMethod" "responseSize") by discriminate.
  rewrite (lookup_insert_ne _ "requestUrl" "responseSize") by discriminate.
  rewrite (lookup_insert_ne _ "requestSize" "responseSize") by discriminate.
  rewrite (lookup_insert_ne _ "remoteIp" "responseSize") by discriminate.
  rewrite (lookup_insert_ne _ "status" "responseSize") by discriminate.
  rewrite (lookup_insert_ne _ "requestMethod" "remoteIp") by discriminate.
  rewrite (lookup_insert_ne _ "requestUrl" "remoteIp") by discriminate.
  rewrite (lookup_insert_ne _ "requestSize" "remoteIp") by discriminate.
  rewrite !lookup_insert_eq.
  repeat split.
  - destruct (META request !! "CONTENT_LENGTH") as [[|? ?]|];
      first [reflexivity | discriminate].
  - intros n -> Hn. destruct n; [congruence|reflexivity].
  - destruct (response_get response "Content-Length") as [[|? ?]|];
      first [reflexivity | discriminate].
  - intros n -> Hn. destruct n; [congruence|reflexivity].
  - intros ->. reflexivity.
  - intros ip ->. reflexivity.
Qed.

(** *** Further properties: levels, handlers and what they forward *)


Lemma getattr_named (n : Z) :
  In n named_levels → logging.getattr (logging.getLevelName n) = Some n.
Proof.
  simpl. intros [<-|[<-|[<-|[<-|[<-|[<-|[]]]]]]]; reflexivity.
Qed.


Lemma callHandlers_from_below (hs : list GCPHandler) (record : logging.LogRecord) (w : W) :
  Forall (λ h, logging.levelno record < handler_level h) hs →
  callHandlers_from hs record w = (Ok tt, w).
Proof.
  induction 1 as [|h hs Hh _ IH]; simpl; [reflexivity|].
  destruct (Z.leb_spec (handler_level h) (logging.levelno record)); [lia|].
  unfold bind, ret. exact IH.
Qed.

(** X6. A record below [DEBUG] is stopped by the level of the handlers the
    middleware registers: with every registered handler at [DEBUG], logging
    it changes nothing and raises nothing, whatever its level name. *)
Theorem X6_below_debug_is_ignored (record : logging.LogRecord) (w : W) :
  Forall (λ h, handler_level h = logging.DEBUG) (LOGGER_handlers w) →
  logging.levelno record < logging.DEBUG →
  callHandlers record w = (Ok tt, w).
Proof.
  intros Hhs Hlevel. unfold callHandlers. apply callHandlers_from_below.
  eapply Forall_impl; [exact Hhs|]. simpl. intros h ->. exact Hlevel.
Qed.



Lemma forwarded_refl (hs : list GCPHandler) (w : W) : forwarded hs w w.
Proof. exists []. rewrite app_nil_r. split; [reflexivity|constructor]. Qed.

Lemma forwarded_trans (hs : list GCPHandler) (w1 w2 w3 : W) :
  forwarded hs w1 w2 → forwarded hs w2 w3 → forwarded hs w1 w3.
Proof.
  intros (new1 & H1 & F1) (new2 & H2 & F2). exists (new1 ++ new2).
  split; [rewrite H2, H1, app_assoc; reflexivity|].
  apply Forall_app. auto.
Qed.

Lemma forwarded_mono (hs hs' : list GCPHandler) (w w' : W) :
  (∀ h, h ∈ hs → h ∈ hs') → forwarded hs w w' → forwarded hs' w w'.
Proof.
  intros Hsub (new & Hnew & Hall). exists new. split; [exact Hnew|].
  eapply Forall_impl; [exact Hall|]. simpl.
  intros e (Hshape & h & Hin & Ht & Hs). split; [exact Hshape|].
  exists h. auto.
Qed.

Lemma emit_forwarded (self : GCPHandler) (record : logging.LogRecord) (w : W) :
  forwarded [self] w (emit self record w).2.
Proof.
  unfold emit. destruct (logging.getattr _) as [level|]; [|apply forwarded_refl].
  destruct (level <? LOGGER_level w); [apply forwarded_refl|].
  exists [child_entry self record (wall_clock (ticks w))].
  split; [destruct w; reflexivity|].
  constructor; [|constructor]. split.
  - split; [eexists; reflexivity|]. split; [reflexivity|]. split; reflexivity.
  - exists self. split; [apply list_elem_of_here|]. split; reflexivity.
Qed.

Lemma callHandlers_from_forwarded (hs : list GCPHandler) (record : logging.LogRecord) (w : W) :
  forwarded hs w (callHandlers_from hs record w).2.
Proof.
  revert w. induction hs as [|h hs IH]; intros w; simpl; [apply forwarded_refl|].
  unfold bind.
  assert (Hhead : forwarded (h :: hs) w
            ((if handler_level h <=? logging.levelno record
              then emit h record else ret tt) w).2).
  { destruct (handler_level h <=? logging.levelno record); [|apply forwarded_refl].
    eapply forwarded_mono; [|apply emit_forwarded].
    intros h' Hin. apply list_elem_of_singleton in Hin as ->. apply list_elem_of_here. }
  destruct ((if handler_level h <=? logging.levelno record
             then emit h record else ret tt) w) as [[[]|e] w1]; simpl in *; [|exact Hhead].
  eapply forwarded_trans; [exact Hhead|].
  eapply forwarded_mono; [|apply IH].
  intros h' Hin. apply list_elem_of_further, Hin.
Qed.

Lemma get_response_forwarded (d : Downstream) (w : W) :
  forwarded (LOGGER_handlers w) w (get_response d w).2.
Proof.
  revert w. induction d as [response|e|record rest IH]; intros w; simpl;
    try apply forwarded_refl.
  unfold bind, callHandlers.
  pose proof (callHandlers_from_forwarded (LOGGER_handlers w) record w) as Hf.
  pose proof (callHandlers_from_untouched (LOGGER_handlers w) record w) as (Hhs & _).
  destruct (callHandlers_from (LOGGER_handlers w) record w) as [[[]|e] w1]; simpl in *;
    [|exact Hf].
  eapply forwarded_trans; [exact Hf|]. rewrite <- Hhs. apply IH.
Qed.

(** *** Further properties: what a call leaves behind *)

Lemma capturing_forwarded (trace_id : string) (span : option string) (w w2 : W) :
  forwarded (LOGGER_handlers (capturing trace_id span w)) (capturing trace_id span w) w2 →
  forwarded (LOGGER_handlers w ++ [request_handler trace_id span w]) w w2.
Proof.
  rewrite capturing_handlers. intros (new & Hnew & Hall). exists new.
  split; [|exact Hall]. rewrite Hnew. destruct w; reflexivity.
Qed.

(** Everything [call_traced] does to the world, by outcome. *)
Lemma call_traced_effect (settings : Settings) (self_get_response : Request → Downstream)
    (request : Request) (trace_id : string) (span : option string) (w : W) :
  let run := call_traced settings self_get_response request trace_id span w in
  let h := request_handler trace_id span w in
  LOGGER_level run.2 = LOGGER_level w ∧
  draws run.2 = draws w ∧
  (ticks w < ticks run.2)%nat ∧
  forwarded (LOGGER_handlers w ++ [h]) w run.2 ∧
  ((∃ response,
      run.1 = Ok response ∧
      (get_response (self_get_response request) (capturing trace_id span w)).1 = Ok response ∧
      LOGGER_handlers run.2 = LOGGER_handlers w ∧
      MLOGLEVELS run.2 = [] ∧
      if USE_X_HTTP_CLOUD_CONTEXT settings
      then TRANSPORT_PARENT run.2 = TRANSPORT_PARENT w
      else ∃ queue e,
             TRANSPORT_PARENT w = Some queue ∧
             TRANSPORT_PARENT run.2 = Some (queue ++ [e]) ∧
             parent_shaped e ∧ trace e = full_trace trace_id ∧ span_id e = span) ∨
   (∃ e,
      run.1 = Raised e ∧
      LOGGER_handlers run.2 = LOGGER_handlers w ++ [h] ∧
      TRANSPORT_PARENT run.2 = TRANSPORT_PARENT w ∧
      ((get_response (self_get_response request) (capturing trace_id span w)).1 = Raised e ∨
       (USE_X_HTTP_CLOUD_CONTEXT settings = false ∧ TRANSPORT_PARENT w = None)))).
Proof.
  intros run h. subst run h.
  pose proof (call_traced_outcome settings self_get_response request trace_id span w) as Hout.
  pose proof (get_response_untouched (self_get_response request)
                (capturing trace_id span w)) as (Hhs & Hlv & Hparent & Hdraws & Hticks).
  pose proof (capturing_forwarded trace_id span w _
                (get_response_forwarded (self_get_response request)
                   (capturing trace_id span w))) as Hfw.
  rewrite capturing_handlers in Hhs. rewrite capturing_parent in Hparent.
  rewrite capturing_ticks in Hticks.
  assert (Hlv0 : LOGGER_level (capturing trace_id span w) = LOGGER_level w)
    by (destruct w; reflexivity).
  assert (Hdr0 : draws (capturing trace_id span w) = draws w) by (destruct w; reflexivity).
  rewrite Hlv0 in Hlv. rewrite Hdr0 in Hdraws. clear Hlv0 Hdr0.
  cbv zeta in Hout.
  destruct (get_response _ _) as [[response|e] w2]; cbn [fst snd] in *.
  - destruct Hout as (sev & _ & Hrun). rewrite Hrun. clear Hrun.
    assert (Hfin : forwarded (LOGGER_handlers w ++ [request_handler trace_id span w])
                             w (finalized w2)).
    { destruct Hfw as (new & Hnew & Hall). exists new. split; [|exact Hall].
      rewrite <- Hnew. destruct w2; reflexivity. }
    destruct (USE_X_HTTP_CLOUD_CONTEXT settings).
    + split; [destruct w2; exact Hlv|]. split; [destruct w2; exact Hdraws|].
      split; [destruct w2; simpl in *; lia|].
      split.
      { destruct Hfin as (new & Hnew & Hall). exists new. split; [|exact Hall].
        rewrite <- Hnew. destruct w2; reflexivity. }
      left. exists response. split; [reflexivity|]. split; [reflexivity|].
      split; [destruct w2; reflexivity|]. split; [destruct w2; reflexivity|].
      destruct w2; exact Hparent.
    + destruct (TRANSPORT_PARENT w) as [queue|] eqn:Hq.
      * split; [destruct w2; exact Hlv|]. split; [destruct w2; exact Hdraws|].
        split; [destruct w2; simpl in *; lia|].
        split.
        { destruct Hfin as (new & Hnew & Hall). exists new. split; [|exact Hall].
          rewrite <- Hnew. destruct w2; reflexivity. }
        left. exists response. split; [reflexivity|]. split; [reflexivity|].
        split; [destruct w2; reflexivity|]. split; [destruct w2; reflexivity|].
        exists queue, (parent_entry (full_trace trace_id) span request
                         (wall_clock (ticks w)) response sev w2).
        split; [reflexivity|]. split; [destruct w2; reflexivity|].
        split; [split; [reflexivity|];
                split; [eexists; reflexivity|]; split; reflexivity|].
        split; reflexivity.
      * split; [destruct w2; exact Hlv|]. split; [destruct w2; exact Hdraws|].
        split; [destruct w2; simpl in *; lia|].
        split; [exact Hfin|].
        right. exists (Py.AttributeError "send"). split; [reflexivity|].
        split; [destruct w2; exact Hhs|]. split; [destruct w2; exact Hparent|].
        right. split; reflexivity.
  - rewrite Hout. cbn [fst snd].
    split; [exact Hlv|]. split; [exact Hdraws|]. split; [lia|]. split; [exact Hfw|].
    right. exists e. split; [reflexivity|]. split; [exact Hhs|]. split; [exact Hparent|].
    left. reflexivity.
Qed.

(** X8. Correlation. When no handler is left over from earlier requests,
    every child entry a returning call in self-emit mode adds carries the
    same trace and span as the parent entry it adds: the project prefix
    followed by the trace id, and the request's span. *)
Theorem X8_children_share_parent_trace (settings : Settings)
    (self_get_response : Request → Downstream) (request : Request)
    (trace_id : string) (span : option string) (w : W) (queue : list Entry)
    (response : Response) :
  let run := call_traced settings self_get_response request trace_id span w in
  LOGGER_handlers w = [] →
  USE_X_HTTP_CLOUD_CONTEXT settings = false →
  TRANSPORT_PARENT w = Some queue →
  run.1 = Ok response →
  ∃ children parent,
    TRANSPORT_CHILD run.2 = TRANSPORT_CHILD w ++ children ∧
    TRANSPORT_PARENT run.2 = Some (queue ++ [parent]) ∧
    trace parent = full_trace trace_id ∧
    span_id parent = span ∧
    Forall (λ e, trace e = trace parent ∧ span_id e = span_id parent) children.
Proof.
  intros run Hhs Hmode Hq Hok. subst run.
  pose proof (call_traced_effect settings self_get_response request trace_id span w)
    as (_ & _ & _ & (children & Hch & Hall) & Hcases).
  cbv zeta in Hcases. rewrite Hmode, Hhs in *.
  destruct Hcases as [(response' & _ & _ & _ & _ & queue' & parent & Hq' & Hp & _ & Ht & Hs)
                     |(e & Hraised & _)]; [|congruence].
  exists children, parent. rewrite Hq in Hq'. injection Hq' as <-.
  split; [exact Hch|]. split; [exact Hp|]. split; [exact Ht|]. split; [exact Hs|].
  eapply Forall_impl; [exact Hall|]. simpl.
  intros e (_ & h & Hin & Hte & Hse).
  apply list_elem_of_singleton in Hin as ->.
  rewrite Hte, Hse, Ht, Hs. split; reflexivity.
Qed.

Lemma call_effect (settings : Settings) (self_get_response : Request → Downstream)
    (request : Request) (w : W) :
  ∃ trace_id span n,
    derive_trace settings request w = (Ok (trace_id, span), set_draws n w) ∧
    call settings self_get_response request w =
    call_traced settings self_get_response request trace_id span (set_draws n w).
Proof.
  destruct (derive_trace_returns settings request w) as (trace_id & span & n & Htrace).
  exists trace_id, span, n. split; [exact Htrace|].
  apply call_after_trace, Htrace.
Qed.

(** X9. What a call never does, whether it returns or raises: it does not
    change the logger's level; it removes nothing from the child transport,
    only appends entries that have a message and no [http_request]; and it
    leaves the parent transport alone or appends exactly one entry, without
    message and with an [http_request], to it. Every entry it appends
    carries the resource of the process and no labels. *)
Theorem X9_call_only_appends (settings : Settings)
    (self_get_response : Request → Downstream) (request : Request) (w : W) :
  let run := call settings self_get_response request w in
  LOGGER_level run.2 = LOGGER_level w ∧
  (∃ new, TRANSPORT_CHILD run.2 = TRANSPORT_CHILD w ++ new ∧ Forall child_shaped new) ∧
  (TRANSPORT_PARENT run.2 = TRANSPORT_PARENT w ∨
   ∃ queue e,
     TRANSPORT_PARENT w = Some queue ∧
     TRANSPORT_PARENT run.2 = Some (queue ++ [e]) ∧
     parent_shaped e).
Proof.
  cbv zeta.
  destruct (call_effect settings self_get_response request w)
    as (trace_id & span & n & _ & ->).
  pose proof (call_traced_effect settings self_get_response request trace_id span
                (set_draws n w)) as (Hlv & _ & _ & (new & Hch & Hall) & Hcases).
  cbv zeta in Hcases.
  replace (LOGGER_level (set_draws n w)) with (LOGGER_level w) in Hlv
    by (destruct w; reflexivity).
  replace (TRANSPORT_CHILD (set_draws n w)) with (TRANSPORT_CHILD w) in Hch
    by (destruct w; reflexivity).
  replace (TRANSPORT_PARENT (set_draws n w)) with (TRANSPORT_PARENT w) in Hcases
    by (destruct w; reflexivity).
  split; [exact Hlv|]. split.
  - exists new. split; [exact Hch|].
    eapply Forall_impl; [exact Hall|]. simpl. tauto.
  - destruct Hcases as [(response & _ & _ & _ & _ & Hp)|(e & _ & _ & Hp & _)];
      [|left; exact Hp].
    destruct (USE_X_HTTP_CLOUD_CONTEXT settings); [left; exact Hp|].
    destruct Hp as (queue & e & Hq & Hp & Hshape & _). right. eauto.
Qed.

(** *** Further properties: a chain of standard records *)

Lemma callHandlers_single (h : GCPHandler) (s : Severity.t) (msg : string) (w : W) :
  LOGGER_handlers w = [h] →
  handler_level h ≤ Severity.levelno s →
  callHandlers (Severity.record s msg) w =
  (Ok tt,
   if Severity.levelno s <? LOGGER_level w then w
   else set_TRANSPORT_CHILD
          (TRANSPORT_CHILD w ++
             [child_entry h (Severity.record s msg) (wall_clock (ticks w))])
          (set_ticks (S (ticks w))
             (set_MLOGLEVELS (MLOGLEVELS w ++ [Severity.name s]) w))).
Proof.
  intros Hhs Hh. unfold callHandlers. rewrite Hhs. cbn [callHandlers_from].
  change (logging.levelno (Severity.record s msg)) with (Severity.levelno s).
  destruct (Z.leb_spec (handler_level h) (Severity.levelno s)); [|lia].
  unfold bind. rewrite emit_standard.
  destruct (Severity.levelno s <? LOGGER_level w); reflexivity.
Qed.

Lemma after_logs_nil (h : GCPHandler) (w : W) : after_logs h [] w = w.
Proof.
  unfold after_logs. destruct w; simpl. rewrite !app_nil_r, Nat.add_0_r. reflexivity.
Qed.

Lemma after_logs_skip (h : GCPHandler) (r : Severity.t * string)
    (rs : list (Severity.t * string)) (w : W) :
  (Severity.levelno r.1 <? LOGGER_level w) = true →
  after_logs h (r :: rs) w = after_logs h rs w.
Proof.
  intros Hlt. unfold after_logs, kept. cbn [List.filter].
  destruct (Z.leb_spec (LOGGER_level w) (Severity.levelno r.1)); [|reflexivity].
  apply Z.ltb_lt in Hlt. lia.
Qed.

Lemma after_logs_keep (h : GCPHandler) (r : Severity.t * string)
    (rs : list (Severity.t * string)) (w : W) :
  (Severity.levelno r.1 <? LOGGER_level w) = false →
  after_logs h (r :: rs) w =
  after_logs h rs
    (set_TRANSPORT_CHILD
       (TRANSPORT_CHILD w ++
          [child_entry h (Severity.record r.1 r.2) (wall_clock (ticks w))])
       (set_ticks (S (ticks w))
          (set_MLOGLEVELS (MLOGLEVELS w ++ [Severity.name r.1]) w))).
Proof.
  intros Hge. unfold after_logs, kept. destruct w as [hs level levels parent child t d].
  cbn [List.filter LOGGER_handlers LOGGER_level MLOGLEVELS TRANSPORT_PARENT
       TRANSPORT_CHILD ticks draws set_TRANSPORT_CHILD set_ticks set_MLOGLEVELS] in *.
  destruct (Z.leb_spec level (Severity.levelno r.1)); [|apply Z.ltb_ge in Hge; lia].
  cbv zeta. rewrite imap_cons, fmap_cons. cbn [length].
  rewrite <- !app_assoc. cbn [app]. rewrite Nat.add_0_r.
  f_equal; [|lia].
  do 2 f_equal. apply imap_ext. intros i x _. simpl. do 2 f_equal. lia.
Qed.

(** With one handler registered, at a level that admits the standard
    severities, a chain of standard records runs as its end does, in the
    world the records leave. *)
Lemma get_response_logs (h : GCPHandler) (rs : list (Severity.t * string))
    (finish : Downstream) (w : W) :
  LOGGER_handlers w = [h] →
  handler_level h ≤ logging.DEBUG →
  get_response (logs rs finish) w = get_response finish (after_logs h rs w).
Proof.
  intros Hhs Hh. revert w Hhs. induction rs as [|r rs IH]; intros w Hhs.
  - rewrite after_logs_nil. reflexivity.
  - cbn [logs foldr get_response]. fold (logs rs finish).
    unfold bind at 1. rewrite (callHandlers_single h); [|exact Hhs|].
    2:{ destruct (r.1); unfold logging.DEBUG in Hh; simpl; unfold logging.DEBUG,
          logging.INFO, logging.WARNING, logging.ERROR, logging.CRITICAL; lia. }
    destruct (Severity.levelno r.1 <? LOGGER_level w) eqn:Hlt.
    + rewrite after_logs_skip by exact Hlt. apply IH, Hhs.
    + rewrite after_logs_keep by exact Hlt. apply IH.
      destruct w; exact Hhs.
Qed.

Lemma imap_entries_fields (h : GCPHandler) (ks : list (Severity.t * string)) (t : nat) :
  let new := imap (λ i r, child_entry h (Severity.record r.1 r.2) (wall_clock (t + i))) ks in
  message <$> new = (λ r, Some r.2) <$> ks ∧
  severity <$> new = (λ r, Severity.name r.1) <$> ks ∧
  timestamp <$> new = wall_clock <$> seq t (length ks) ∧
  Forall (λ e, trace e = handler_trace h ∧ span_id e = handler_span h) new.
Proof.
  cbv zeta. revert t. induction ks as [|r ks IH]; intros t.
  - repeat split; constructor.
  - rewrite imap_cons.
    rewrite (imap_ext _ (λ i r, child_entry h (Severity.record r.1 r.2)
                                  (wall_clock (S t + i))) ks)
      by (intros i x _; simpl; do 2 f_equal; lia).
    destruct (IH (S t)) as (Hm & Hs & Ht & Hall).
    rewrite !fmap_cons, Hm, Hs, Ht. cbn [length seq]. rewrite Nat.add_0_r.
    repeat split. constructor; [split; reflexivity|exact Hall].
Qed.

Lemma logs_downstream (h : GCPHandler) (rs : list (Severity.t * string))
    (response : Response) (w : W) :
  LOGGER_handlers w = [h] →
  handler_level h ≤ logging.DEBUG →
  get_response (logs rs (Respond response)) w = (Ok response, after_logs h rs w).
Proof. intros Hhs Hh. rewrite (get_response_logs h) by assumption. reflexivity. Qed.



(** *** Further properties: the shape of trace ids and spans *)

Lemma before_without (c : ascii) (s : string) :
  ¬ In c (list_ascii_of_string (Header.before c s)).
Proof.
  induction s as [|a s IH]; simpl; [tauto|].
  destruct (Ascii.eqb_spec a c); simpl; [tauto|]. intros [H|H]; [congruence|tauto].
Qed.

Lemma before_within (c d : ascii) (s : string) :
  In d (list_ascii_of_string (Header.before c s)) → In d (list_ascii_of_string s).
Proof.
  induction s as [|a s IH]; simpl; [tauto|].
  destruct (Ascii.eqb a c); simpl; tauto.
Qed.

Lemma synthesized_without (from : nat) (c : ascii) :
  alnum c = false → ¬ In c (list_ascii_of_string (synthesized from)).
Proof.
  intros Hc Hin. pose proof (synthesized_alnum from) as Hall.
  rewrite Forall_forall in Hall. apply list_elem_of_In in Hin.
  rewrite (Hall c Hin) in Hc. discriminate Hc.
Qed.

(** X12. Whatever the mode and the request, the trace id that comes out of
    the derivation holds no slash, and a span, when there is one, holds
    neither a slash nor a semicolon. *)
Theorem X12_trace_id_and_span_hold_no_delimiter (settings : Settings) (request : Request)
    (w w' : W) (trace_id : string) (span : option string) :
  derive_trace settings request w = (Ok (trace_id, span), w') →
  ¬ In "/"%char (list_ascii_of_string trace_id) ∧
  ∀ sp, span = Some sp →
        ¬ In "/"%char (list_ascii_of_string sp) ∧ ¬ In ";"%char (list_ascii_of_string sp).
Proof.
  intros Hrun.
  destruct (if USE_X_HTTP_CLOUD_CONTEXT settings
            then Py.truthy (META request !! "HTTP_X_CLOUD_TRACE_CONTEXT")
            else false) eqn:Hcase.
  - destruct (USE_X_HTTP_CLOUD_CONTEXT settings) eqn:Hmode; [|discriminate].
    destruct (META request !! "HTTP_X_CLOUD_TRACE_CONTEXT") as [h|] eqn:Hget;
      [|discriminate].
    assert (Hne : h ≠ EmptyString) by (intros ->; discriminate Hcase).
    rewrite (derive_trace_header settings request h w Hmode Hget Hne) in Hrun.
    injection Hrun as <- <- _. split; [exact (before_without "/" h)|].
    intros sp Hsp. destruct (Header.after "/" h) as [rest|]; [|discriminate].
    injection Hsp as <-.
    split; [|exact (before_without ";" (Header.before "/" rest))].
    intros Hin. apply before_within in Hin. exact (before_without "/" rest Hin).
  - rewrite (derive_trace_synthesized settings request w Hcase) in Hrun.
    injection Hrun as <- <- _. split; [apply synthesized_without; reflexivity|].
    intros sp Hsp. discriminate Hsp.
Qed.

(** X13. In external-propagation mode, with a non-empty header, the trace id
    is empty exactly when the header begins with a slash: nothing is
    synthesized in its place. *)
Theorem X13_empty_trace_id_from_leading_slash (settings : Settings) (request : Request)
    (h : string) (w w' : W) (trace_id : string) (span : option string) :
  USE_X_HTTP_CLOUD_CONTEXT settings = true →
  META request !! "HTTP_X_CLOUD_TRACE_CONTEXT" = Some h →
  h ≠ EmptyString →
  derive_trace settings request w = (Ok (trace_id, span), w') →
  (trace_id = EmptyString ↔ ∃ rest, h = String "/" rest) ∧ w' = w.
Proof.
  intros Hmode Hget Hne Hrun.
  rewrite (derive_trace_header settings request h w Hmode Hget Hne) in Hrun.
  injection Hrun as <- _ <-. split; [|reflexivity].
  destruct h as [|a rest]; [congruence|]. simpl.
  destruct (Ascii.eqb_spec a "/") as [->|Hneq].
  - split; [eauto|reflexivity].
  - split; [discriminate|]. intros (rest' & Heq). congruence.
Qed.

(** *** Further properties: what holds between requests *)

Lemma steady_set_draws (settings : Settings) (n : nat) (w : W) :
  steady settings w → steady settings (set_draws n w).
Proof. destruct w. exact id. Qed.

Lemma steady_import (settings : Settings) : steady settings (module_world settings).
Proof.
  unfold steady, module_world. cbn [LOGGER_level TRANSPORT_PARENT LOGGER_handlers
    TRANSPORT_CHILD].
  split; [reflexivity|]. split.
  - destruct (USE_X_HTTP_CLOUD_CONTEXT settings); simpl; split; congruence.
  - split; [constructor|]. split; [constructor|]. split; [constructor|].
    destruct (negb _); constructor.
Qed.

Lemma fresh_hid_not_elem (hs : list GCPHandler) :
  S (max_list (hid <$> hs)) ∉ hid <$> hs.
Proof. intros Hin. apply max_list_elem_of_le in Hin. lia. Qed.

Lemma steady_call_traced (settings : Settings) (self_get_response : Request → Downstream)
    (request : Request) (trace_id : string) (span : option string) (w : W) :
  steady settings w →
  steady settings (call_traced settings self_get_response request trace_id span w).2.
Proof.
  intros (Hlv & Hpar & Hnd & Hdbg & Hch & Hpq).
  pose proof (call_traced_effect settings self_get_response request trace_id span w)
    as (Elv & _ & _ & (new & Enew & Hnew) & Hcases).
  cbv zeta in Hcases.
  set (run := call_traced settings self_get_response request trace_id span w) in *.
  assert (Hch' : Forall child_shaped (TRANSPORT_CHILD run.2)).
  { rewrite Enew. apply Forall_app. split; [exact Hch|].
    eapply Forall_impl; [exact Hnew|]. simpl. tauto. }
  assert (Hgrown : NoDup (hid <$> LOGGER_handlers w ++ [request_handler trace_id span w]) ∧
                   Forall (λ h, handler_level h = logging.DEBUG)
                          (LOGGER_handlers w ++ [request_handler trace_id span w])).
  { split.
    - rewrite fmap_app. apply NoDup_app. split; [exact Hnd|]. split.
      + intros x Hx Hin. apply list_elem_of_singleton in Hin. subst x.
        exact (fresh_hid_not_elem _ Hx).
      + apply NoDup_singleton.
    - apply Forall_app. split; [exact Hdbg|]. constructor; [reflexivity|constructor]. }
  destruct Hcases as [(response & _ & _ & Ehs & _ & Epar)|(e & _ & Ehs & Epar & _)].
  - destruct (USE_X_HTTP_CLOUD_CONTEXT settings) eqn:Hmode.
    + unfold steady. rewrite Elv, Epar, Ehs, Hmode.
      split; [exact Hlv|]. split; [exact Hpar|]. split; [exact Hnd|].
      split; [exact Hdbg|]. split; [exact Hch'|exact Hpq].
    + destruct Epar as (queue & entry & Eq & Epar & Hshape & _).
      unfold steady. rewrite Elv, Epar, Ehs, Hmode. rewrite Eq in Hpq. cbn [default] in *.
      split; [exact Hlv|]. split; [split; discriminate|].
      split; [exact Hnd|]. split; [exact Hdbg|]. split; [exact Hch'|].
      apply Forall_app. split; [exact Hpq|]. constructor; [exact Hshape|constructor].
  - destruct Hgrown as (Hnd' & Hdbg').
    unfold steady. rewrite Elv, Epar, Ehs.
    split; [exact Hlv|]. split; [exact Hpar|]. split; [exact Hnd'|].
    split; [exact Hdbg'|]. split; [exact Hch'|exact Hpq].
Qed.

Lemma steady_call (settings : Settings) (self_get_response : Request → Downstream)
    (request : Request) (w : W) :
  steady settings w → steady settings (call settings self_get_response request w).2.
Proof.
  intros Hw.
  destruct (call_effect settings self_get_response request w)
    as (trace_id & span & n & _ & ->).
  apply steady_call_traced, steady_set_draws, Hw.
Qed.

Lemma reachable_steady (settings : Settings) (w : W) :
  reachable settings w → steady settings w.
Proof. induction 1; [apply steady_import|apply steady_call; assumption]. Qed.

Lemma history_reachable (settings : Settings) (raised : nat) (w : W) :
  history settings raised w → reachable settings w.
Proof. induction 1; [constructor|constructor; assumption]. Qed.

(** X14. Streams never mix. In every world a process goes through, every
    entry of the child transport has a message and no [http_request], every
    entry of the parent transport has no message and an [http_request], all
    of them carry the resource of the process and no labels, and the parent
    transport is missing exactly in external-propagation mode. *)
Theorem X14_streams_never_mix (settings : Settings) (w : W) :
  reachable settings w →
  Forall child_shaped (TRANSPORT_CHILD w) ∧
  (∀ queue, TRANSPORT_PARENT w = Some queue → Forall parent_shaped queue) ∧
  (TRANSPORT_PARENT w = None ↔ USE_X_HTTP_CLOUD_CONTEXT settings = true).
Proof.
  intros Hw. destruct (reachable_steady settings w Hw) as (_ & Hpar & _ & _ & Hch & Hpq).
  split; [exact Hch|]. split; [|exact Hpar].
  intros queue Hq. rewrite Hq in Hpq. exact Hpq.
Qed.

(** X15. Each call that raises leaves one handler behind, and nothing ever
    removes it: in a world a process has reached, the number of handlers
    registered on the logger is the number of calls that raised so far. *)
Theorem X15_one_handler_left_per_raising_call (settings : Settings) (raised : nat) (w : W) :
  history settings raised w →
  length (LOGGER_handlers w) = raised.
Proof.
  induction 1 as [|self_get_response request raised w _ IH]; [reflexivity|].
  destruct (call_effect settings self_get_response request w)
    as (trace_id & span & n & _ & ->).
  pose proof (call_traced_effect settings self_get_response request trace_id span
                (set_draws n w)) as (_ & _ & _ & _ & Hcases).
  cbv zeta in Hcases.
  replace (LOGGER_handlers (set_draws n w)) with (LOGGER_handlers w) in Hcases
    by (destruct w; reflexivity).
  destruct Hcases as [(response & -> & _ & -> & _)|(e & -> & -> & _)].
  - exact IH.
  - rewrite length_app, IH. simpl. lia.
Qed.

(** X16. The middleware adds no outcome of its own. In every world a
    process goes through, a call returns exactly the response the downstream
    chain returns and raises exactly the exception it raises, the chain
    running with the request's handler registered. *)
Theorem X16_call_outcome_is_downstream_outcome (settings : Settings)
    (self_get_response : Request → Downstream) (request : Request) (w w0 : W)
    (trace_id : string) (span : option string) :
  reachable settings w →
  derive_trace settings request w = (Ok (trace_id, span), w0) →
  (call settings self_get_response request w).1 =
  (get_response (self_get_response request) (capturing trace_id span w0)).1.
Proof.
  intros Hw Htrace.
  rewrite (call_after_trace _ _ _ _ _ _ _ Htrace).
  destruct (derive_trace_returns settings request w) as (trace_id' & span' & n & Htrace').
  rewrite Htrace in Htrace'. injection Htrace' as _ _ ->.
  pose proof (steady_set_draws settings n w (reachable_steady settings w Hw))
    as (_ & Hpar & _).
  pose proof (call_traced_effect settings self_get_response request trace_id span
                (set_draws n w)) as (_ & _ & _ & _ & Hcases).
  cbv zeta in Hcases.
  destruct Hcases as [(response & -> & -> & _)|(e & -> & _ & _ & [->|(Hmode & Hnone)])];
    try reflexivity.
  apply Hpar in Hnone. congruence.
Qed.

(** *** The claims on tracking, revisited with the lemmas above *)

Lemma format_plain (self : GCPHandler) (record : logging.LogRecord) :
  logging.exc_text record = None → logging.stack_info record = None →
  format self record = logging.getMessage record.
Proof.
  unfold format, logging.Formatter_format. intros -> ->. reflexivity.
Qed.

(** A record with exception text: the text follows the message on a line
    of its own. *)
Lemma format_with_exception (self : GCPHandler) (record : logging.LogRecord)
    (c : ascii) (t : string) :
  logging.exc_text record = Some (String c t) →
  logging.stack_info record = None →
  logging.ends_with_LF (logging.getMessage record) = false →
  format self record =
  (logging.getMessage record +:+ String logging.LF EmptyString) +:+ String c t.
Proof.
  unfold format, logging.Formatter_format. intros -> -> Hend.
  cbn [logging.append_block]. rewrite Hend. reflexivity.
Qed.

(** A record at one of the named levels that reaches the handler of a
    request: at or above the logger's level, its level name is appended to
    [MLOGLEVELS] and one entry with the formatted record, carrying the
    request's trace and span, goes to the child transport; below that level
    nothing is recorded or sent. *)
Lemma emit_named_level (trace_id : string) (span : option string) (w0 w : W)
    (record : logging.LogRecord) :
  let self := request_handler trace_id span w0 in
  In (logging.levelno record) named_levels →
  (LOGGER_level w ≤ logging.levelno record →
   ∃ w' entry,
     emit self record w = (Ok tt, w') ∧
     MLOGLEVELS w' = MLOGLEVELS w ++ [logging.levelname record] ∧
     TRANSPORT_CHILD w' = TRANSPORT_CHILD w ++ [entry] ∧
     message entry = Some (format self record) ∧
     severity entry = logging.levelname record ∧
     trace entry = full_trace trace_id ∧
     span_id entry = span) ∧
  (logging.levelno record < LOGGER_level w →
   emit self record w = (Ok tt, w)).
Proof.
  intros self Hnamed. unfold emit, logging.levelname.
  rewrite (getattr_named _ Hnamed). split; intros Hlevel.
  - destruct (Z.ltb_spec (logging.levelno record) (LOGGER_level w)); [lia|].
    eexists _, (child_entry self record (wall_clock (ticks w))).
    split; [reflexivity|]. destruct w; repeat split; reflexivity.
  - destruct (Z.ltb_spec (logging.levelno record) (LOGGER_level w)); [reflexivity|lia].
Qed.

(** C6. In external-propagation mode no call ever changes the parent
    transport, while the rest of the life cycle takes place. The downstream
    chain runs with the request's handler registered last on the logger; if
    it raises, the call raises in the world the chain left; if it returns,
    the call returns its response with the handlers of before the request
    and [MLOGLEVELS] emptied. With no handler left over, a chain that logs
    standard records and answers has, when it answers, the level names of the
    records at or above the logger's level appended to [MLOGLEVELS] and their
    entries, tagged with the request's trace and span, appended to the child
    transport, and the call keeps these entries. For the same trace and span
    a call in this mode and a call in self-emit mode, started from worlds
    that differ only in the parent transport, end with the same result, the
    same handlers, the same [MLOGLEVELS] and the same child entries. *)
Theorem C6_external_mode_registers_tracks_sends_no_parent (ext self_emit : Settings)
    (self_get_response : Request → Downstream) (request : Request) (w : W) :
  USE_X_HTTP_CLOUD_CONTEXT ext = true →
  USE_X_HTTP_CLOUD_CONTEXT self_emit = false →
  TRANSPORT_PARENT (call ext self_get_response request w).2 = TRANSPORT_PARENT w ∧
  (∀ trace_id span,
     let downstream :=
       get_response (self_get_response request) (capturing trace_id span w) in
     LOGGER_handlers (capturing trace_id span w) =
       LOGGER_handlers w ++ [request_handler trace_id span w] ∧
     call_traced ext self_get_response request trace_id span w =
       match downstream.1 with
       | Ok response =>
           (Ok response, set_handlers (LOGGER_handlers w) (finalized downstream.2))
       | Raised e => (Raised e, downstream.2)
       end) ∧
  (∀ trace_id span rs response,
     LOGGER_handlers w = [] →
     self_get_response request = logs rs (Respond response) →
     ∃ w2 new,
       get_response (self_get_response request) (capturing trace_id span w) =
         (Ok response, w2) ∧
       MLOGLEVELS w2 =
         MLOGLEVELS w ++ ((λ r, Severity.name r.1) <$> kept (LOGGER_level w) rs) ∧
       TRANSPORT_CHILD w2 = TRANSPORT_CHILD w ++ new ∧
       message <$> new = (λ r, Some r.2) <$> kept (LOGGER_level w) rs ∧
       severity <$> new = (λ r, Severity.name r.1) <$> kept (LOGGER_level w) rs ∧
       Forall (λ e, trace e = full_trace trace_id ∧ span_id e = span) new ∧
       (call_traced ext self_get_response request trace_id span w).1 = Ok response ∧
       LOGGER_handlers (call_traced ext self_get_response request trace_id span w).2 = [] ∧
       MLOGLEVELS (call_traced ext self_get_response request trace_id span w).2 = [] ∧
       TRANSPORT_CHILD (call_traced ext self_get_response request trace_id span w).2 =
         TRANSPORT_CHILD w ++ new ∧
       TRANSPORT_PARENT (call_traced ext self_get_response request trace_id span w).2 =
         TRANSPORT_PARENT w) ∧
  (∀ trace_id span queue,
     let run_ext :=
       call_traced ext self_get_response request trace_id span
                   (set_TRANSPORT_PARENT None w) in
     let run_self :=
       call_traced self_emit self_get_response request trace_id span
                   (set_TRANSPORT_PARENT (Some queue) w) in
     TRANSPORT_PARENT run_ext.2 = None ∧
     run_ext.1 = run_self.1 ∧
     LOGGER_handlers run_ext.2 = LOGGER_handlers run_self.2 ∧
     MLOGLEVELS run_ext.2 = MLOGLEVELS run_self.2 ∧
     TRANSPORT_CHILD run_ext.2 = TRANSPORT_CHILD run_self.2).
Proof.
  intros Hext Hself.
  assert (Hrun : ∀ trace_id span,
            call_traced ext self_get_response request trace_id span w =
            match (get_response (self_get_response request)
                     (capturing trace_id span w)).1 with
            | Ok response =>
                (Ok response,
                 set_handlers (LOGGER_handlers w)
                   (finalized (get_response (self_get_response request)
                                 (capturing trace_id span w)).2))
            | Raised e =>
                (Raised e,
                 (get_response (self_get_response request) (capturing trace_id span w)).2)
            end).
  { intros trace_id span.
    pose proof (call_traced_outcome ext self_get_response request trace_id span w) as Hout.
    cbv zeta in Hout.
    destruct (get_response _ _) as [[response|e] w2]; cbn [fst snd] in *; [|exact Hout].
    destruct Hout as (sev & _ & ->). rewrite Hext. reflexivity. }
  split; [exact (proj1 (external_mode_agrees_with_self_emit ext self_emit
                          self_get_response request w Hext Hself))|].
  split; [intros trace_id span; cbv zeta; split;
          [apply capturing_handlers|apply Hrun]|].
  split.
  - intros trace_id span rs response Hhs Hchain.
    set (h := request_handler trace_id span w).
    assert (Hdown : get_response (self_get_response request) (capturing trace_id span w) =
                    (Ok response, after_logs h rs (capturing trace_id span w))).
    { rewrite Hchain. apply logs_downstream; [|reflexivity].
      rewrite capturing_handlers, Hhs. reflexivity. }
    destruct (imap_entries_fields h (kept (LOGGER_level w) rs) (S (ticks w)))
      as (Hm & Hs & _ & Htags).
    cbv zeta in Hm, Hs, Htags.
    eexists _, _. split; [exact Hdown|].
    split; [destruct w; reflexivity|].
    split; [destruct w; reflexivity|].
    split; [exact Hm|]. split; [exact Hs|]. split; [exact Htags|].
    rewrite (Hrun trace_id span), Hdown. cbn [fst snd].
    split; [reflexivity|].
    split; [rewrite <- Hhs; destruct w; reflexivity|].
    split; [destruct w; reflexivity|].
    split; destruct w; reflexivity.
  - intros trace_id span queue.
    destruct (proj2 (external_mode_agrees_with_self_emit ext self_emit
                       self_get_response request w Hext Hself) trace_id span queue)
      as (H1 & H2 & H3 & H4 & H5 & _).
    cbv zeta. auto.
Qed.

End gcp_logging.

(** ** The claims on sample requests *)

Local Abbreviation sample_call :=
  (call Z Z.sub Sample.format_5f Sample.wall_clock Sample.random_bits Sample.environ).
Local Abbreviation sample_call_traced :=
  (call_traced Z Z.sub Sample.format_5f Sample.wall_clock Sample.environ).
Local Abbreviation sample_derive_trace := (derive_trace Z Sample.random_bits).
Local Abbreviation sample_world := (module_world Z).

(** C1. A view logs at INFO and then at WARNING and answers 200, in
    self-emit mode, from the world the import leaves. Both records are
    forwarded and tracked, the greatest severity tracked is WARNING, and the
    parent entry is sent with severity INFO: [min] over the level names takes
    the least name in alphabetical order, not the greatest severity. *)
Theorem C1_parent_severity_is_least_name :
  let run := sample_call Sample.self_emit Sample.info_then_warning
                         (Sample.request None) (sample_world Sample.self_emit) in
  run.1 = Ok Sample.ok ∧
  severity <$> TRANSPORT_CHILD run.2 = ["INFO"; "WARNING"] ∧
  Severity.name <$> Severity.maximum [Severity.INFO; Severity.WARNING] = Some "WARNING" ∧
  parent_severity ["INFO"; "WARNING"] Sample.ok = Ok "INFO" ∧
  fmap (M:=list) severity <$> TRANSPORT_PARENT run.2 = Some ["INFO"].
Proof. vm_compute. repeat split; reflexivity. Qed.

(** C2, counterexample. A view logs at INFO and raises. The call raises,
    the logger, which held no handler, now holds the request's handler, and
    the parent transport is still empty: nothing of severity ERROR or above
    was aggregated for the exception. *)
Lemma C2_counterexample_raising_view :
  let w := sample_world Sample.self_emit in
  let run := sample_call Sample.self_emit Sample.raising (Sample.request None) w in
  run.1 = Raised (Py.AppError "boom") ∧
  LOGGER_handlers w = [] ∧
  hid <$> LOGGER_handlers run.2 = [1%nat] ∧
  LOGGER_handlers run.2 ≠ LOGGER_handlers w ∧
  TRANSPORT_PARENT run.2 = Some [] ∧
  MLOGLEVELS run.2 = ["INFO"].
Proof. vm_compute. repeat split; try reflexivity. discriminate. Qed.

(** C3, counterexample. In external-propagation mode the header
    ["abc123/456"] is not of the form ["<trace-id>/<span-id>;o=<flag>"], yet
    the trace id is [abc123], taken from the header and not synthesized (no
    random character is drawn), and there is a span, [456]. *)
Lemma C3_counterexample_header_without_flag :
  let w := sample_world Sample.external in
  ¬ Header.well_formed "abc123/456" ∧
  sample_derive_trace Sample.external (Sample.request (Some "abc123/456")) w =
    (Ok ("abc123", Some "456"), w) ∧
  "abc123" ≠ synthesized Sample.random_bits (draws w).
Proof.
  cbv zeta. split; [|split].
  - intros H. apply well_formed_has_semicolon in H. simpl in H.
    repeat (destruct H as [H|H]; [discriminate H|]). exact H.
  - vm_compute. reflexivity.
  - vm_compute. discriminate.
Qed.

(** C4, counterexample. In self-emit mode the header ["abc123/456;o=1"]
    does not give trace id [abc123] and span [456]: the trace id is the
    synthesized one and there is no span. *)
Lemma C4_counterexample_self_emit_mode :
  let w := sample_world Sample.self_emit in
  let run := sample_derive_trace Sample.self_emit
               (Sample.request (Some "abc123/456;o=1")) w in
  run.1 = Ok ("dkry6cjqx5bipw4ahov30gnu29fmt18e", None) ∧
  run.1 ≠ Ok ("abc123", Some "456").
Proof. vm_compute. split; [reflexivity|discriminate]. Qed.

(** C2 on a sample: the view that logs twice and answers 200. *)
Lemma C2_witness :
  let w := sample_world Sample.self_emit in
  let run := sample_call_traced Sample.self_emit Sample.info_then_warning
               (Sample.request None) "t" None w in
  transports_ready Z Sample.self_emit w ∧
  run.1 = Ok Sample.ok ∧ LOGGER_handlers run.2 = LOGGER_handlers w.
Proof.
  cbv zeta.
  assert (Hready : transports_ready Z Sample.self_emit (sample_world Sample.self_emit)).
  { intros _. exists []. reflexivity. }
  split; [exact Hready|].
  exact (C2_handler_unregistered_on_return Z Z.sub Sample.format_5f Sample.wall_clock
           Sample.environ Sample.self_emit Sample.info_then_warning (Sample.request None)
           "t" None (sample_world Sample.self_emit) Hready).
Defined.

(** C3 on a sample: a header with no flag part. *)
Lemma C3_witness :
  let w := sample_world Sample.external in
  let request := Sample.request (Some "abc123/456") in
  USE_X_HTTP_CLOUD_CONTEXT Sample.external = true ∧
  META request !! "HTTP_X_CLOUD_TRACE_CONTEXT" = Some "abc123/456" ∧
  "abc123/456" ≠ EmptyString ∧
  sample_derive_trace Sample.external request w = (Ok ("abc123", Some "456"), w).
Proof.
  cbv zeta.
  assert (H1 : USE_X_HTTP_CLOUD_CONTEXT Sample.external = true) by reflexivity.
  assert (H2 : META (Sample.request (Some "abc123/456")) !! "HTTP_X_CLOUD_TRACE_CONTEXT"
               = Some "abc123/456") by reflexivity.
  assert (H3 : "abc123/456" ≠ EmptyString) by discriminate.
  split; [exact H1|]. split; [exact H2|]. split; [exact H3|].
  exact (proj1 (C3_header_cut_without_validation Z Sample.random_bits Sample.external
                  (Sample.request (Some "abc123/456")) "abc123/456"
                  (sample_world Sample.external) H1 H2 H3)).
Defined.

(** C4 on a sample: requests that carry nothing but the header. *)
Lemma C4_witness :
  let w := sample_world Sample.external in
  USE_X_HTTP_CLOUD_CONTEXT Sample.external = true ∧
  sample_derive_trace Sample.external (Sample.request (Some "abc123/456;o=1")) w =
    (Ok ("abc123", Some "456"), w) ∧
  sample_derive_trace Sample.external (Sample.request (Some "abc123")) w =
    (Ok ("abc123", None), w).
Proof.
  cbv zeta.
  assert (H : USE_X_HTTP_CLOUD_CONTEXT Sample.external = true) by reflexivity.
  split; [exact H|].
  destruct (C4_trace_from_header_in_external_mode Z Sample.random_bits Sample.external
              Sample.self_emit "GET" "/items?page=2" ∅ (sample_world Sample.external) H)
    as (Hfull & Hbare & _).
  split; [exact Hfull|exact Hbare].
Defined.

(** C5 on a sample: nothing tracked and a 503. *)
Lemma C5_witness :
  let w := sample_world Sample.self_emit in
  MLOGLEVELS w = [] ∧ parent_severity (MLOGLEVELS w) (mkResponse 503 ∅) = Ok "ERROR".
Proof.
  cbv zeta.
  assert (H : MLOGLEVELS (sample_world Sample.self_emit) = []) by reflexivity.
  split; [exact H|].
  destruct (C5_status_severity_without_children Z Z.sub Sample.format_5f Sample.wall_clock
              Sample.environ Sample.self_emit "t" None (Sample.request None) 0
              (mkResponse 503 ∅) (sample_world Sample.self_emit) H)
    as (sev & Hsev & H500 & _).
  rewrite Hsev. f_equal. apply H500. simpl. lia.
Defined.

(** C8 on a sample: the view that logs twice leaves nothing tracked. *)
Lemma C8_witness :
  let run := sample_call Sample.self_emit Sample.info_then_warning
               (Sample.request None) (sample_world Sample.self_emit) in
  run.1 = Ok Sample.ok ∧ MLOGLEVELS run.2 = [].
Proof.
  cbv zeta.
  assert (H : (sample_call Sample.self_emit Sample.info_then_warning
                 (Sample.request None) (sample_world Sample.self_emit)).1 = Ok Sample.ok)
    by (vm_compute; reflexivity).
  split; [exact H|].
  exact (proj2 (C8_tracker_empty_after_finalization Z Z.sub Sample.format_5f
                  Sample.wall_clock Sample.random_bits Sample.environ Sample.self_emit
                  Sample.info_then_warning (Sample.request None)
                  (sample_world Sample.self_emit)) Sample.ok H).
Defined.

(** C9 on a sample: the silent view; the clock is read at ticks 0 and 1, and
    the sample clock advances by 7 a tick. *)
Lemma C9_witness :
  let w := sample_world Sample.self_emit in
  let run := sample_call Sample.self_emit Sample.silent (Sample.request None) w in
  USE_X_HTTP_CLOUD_CONTEXT Sample.self_emit = false ∧
  TRANSPORT_PARENT w = Some [] ∧
  run = (Ok Sample.ok, run.2) ∧
  ∃ entry REQUEST,
    TRANSPORT_PARENT run.2 = Some [entry] ∧
    message entry = None ∧
    http_request entry = Some REQUEST ∧
    REQUEST !! "status" = Some (Py.Int 200) ∧
    REQUEST !! "latency" = Some (Py.Str "7.00000s").
Proof.
  cbv zeta.
  assert (H1 : USE_X_HTTP_CLOUD_CONTEXT Sample.self_emit = false) by reflexivity.
  assert (H2 : TRANSPORT_PARENT (sample_world Sample.self_emit) = Some []) by reflexivity.
  assert (H3 : sample_call Sample.self_emit Sample.silent (Sample.request None)
                 (sample_world Sample.self_emit) =
               (Ok Sample.ok,
                (sample_call Sample.self_emit Sample.silent (Sample.request None)
                   (sample_world Sample.self_emit)).2))
    by (vm_compute; reflexivity).
  split; [exact H1|]. split; [exact H2|]. split; [exact H3|].
  destruct (C9_one_parent_entry_with_status_and_latency Z Z.sub Sample.format_5f
              Sample.wall_clock Sample.random_bits Sample.environ Sample.self_emit
              Sample.silent (Sample.request None) (sample_world Sample.self_emit) _
              [] Sample.ok H1 H2 H3)
    as (entry & REQUEST & t_end & Hq & Hmsg & Hreq & Hstatus & Hlat & Hlt & _ & Hticks).
  assert (t_end = 1%nat) as ->.
  { vm_compute in Hticks. congruence. }
  exists entry, REQUEST.
  split; [exact Hq|]. split; [exact Hmsg|]. split; [exact Hreq|].
  split; [exact Hstatus|exact Hlat].
Defined.

(** C10 on a sample: a well-formed header in self-emit mode. *)
Lemma C10_witness :
  let w := sample_world Sample.self_emit in
  GCP_LOG_USE_X_HTTP_CLOUD_CONTEXT Sample.self_emit ≠ Some true ∧
  sample_derive_trace Sample.self_emit (Sample.request (Some "abc123/456;o=1")) w =
    (Ok ("dkry6cjqx5bipw4ahov30gnu29fmt18e", None), set_draws 32 w).
Proof.
  cbv zeta.
  assert (H : GCP_LOG_USE_X_HTTP_CLOUD_CONTEXT Sample.self_emit ≠ Some true) by discriminate.
  split; [exact H|].
  rewrite (C10_self_emit_ignores_header Z Sample.random_bits Sample.self_emit
             (Sample.request (Some "abc123/456;o=1")) (sample_world Sample.self_emit) H).
  vm_compute. reflexivity.
Defined.

(** ** The further properties on sample requests *)

Local Abbreviation sample_emit := (emit Z Sample.wall_clock Sample.environ).
Local Abbreviation sample_capturing := (capturing Z Sample.environ).
Local Abbreviation sample_REQUEST :=
  (make_REQUEST Z Sample.format_5f Sample.environ Sample.browser_request Sample.ok 7).

(** X1 on samples: no variable set, and [x-forwarded-for]. *)
Lemma X1_witness :
  Py.truthy (Sample.environ !! "GROUPED_LOGGING_REMOTE_IP_HEADER") = false ∧
  REMOTE_IP_HEADER Sample.environ = "REMOTE_ADDR" ∧
  Sample.proxied !! "GROUPED_LOGGING_REMOTE_IP_HEADER" = Some "x-forwarded-for" ∧
  "x-forwarded-for" ≠ EmptyString ∧
  ascii_text "x-forwarded-for" = true ∧
  ∃ name,
    REMOTE_IP_HEADER Sample.proxied = "HTTP_" +:+ name ∧
    String.length name = 15%nat ∧
    ascii_text name = true ∧
    Forall (λ c, c ≠ "-"%char ∧ lowercase c = false) (list_ascii_of_string name).
Proof.
  assert (H1 : Py.truthy (Sample.environ !! "GROUPED_LOGGING_REMOTE_IP_HEADER") = false)
    by reflexivity.
  assert (H2 : Sample.proxied !! "GROUPED_LOGGING_REMOTE_IP_HEADER"
               = Some "x-forwarded-for") by reflexivity.
  assert (H3 : "x-forwarded-for" ≠ EmptyString) by discriminate.
  assert (H4 : ascii_text "x-forwarded-for" = true) by reflexivity.
  split; [exact H1|].
  split; [exact (proj1 (X1_remote_ip_header_normalised Sample.environ) H1)|].
  split; [exact H2|]. split; [exact H3|]. split; [exact H4|].
  exact (proj2 (X1_remote_ip_header_normalised Sample.proxied) "x-forwarded-for" H2 H3 H4).
Defined.

(** X2 on a sample: the prefix [shop] in self-emit mode. *)
Lemma X2_witness :
  PARENT_LOG_NAME Sample.proxied Sample.self_emit = Some "shop_request_log" ∧
  LOG_PREFIX Sample.proxied = Some "shop" ∧
  "shop" ≠ EmptyString ∧
  CHILD_LOG_NAME Sample.proxied = "shop" +:+ "_application" ∧
  "shop_request_log" ≠ CHILD_LOG_NAME Sample.proxied.
Proof.
  assert (H : PARENT_LOG_NAME Sample.proxied Sample.self_emit = Some "shop_request_log")
    by reflexivity.
  assert (H1 : LOG_PREFIX Sample.proxied = Some "shop") by reflexivity.
  assert (H2 : "shop" ≠ EmptyString) by discriminate.
  destruct (X2_log_names_distinct Sample.proxied Sample.self_emit "shop_request_log" H)
    as (Hset & _ & Hne).
  split; [exact H|]. split; [exact H1|]. split; [exact H2|].
  split; [exact (proj2 (Hset "shop" H1 H2))|exact Hne].
Defined.

(** X3 on a sample: a user agent and no referer. *)
Lemma X3_witness :
  META Sample.browser_request !! "HTTP_USER_AGENT" = Some "curl/8" ∧
  "curl/8" ≠ EmptyString ∧
  sample_REQUEST !! "userAgent" = Some (Py.Str "curl/8") ∧
  Py.truthy (META Sample.browser_request !! "HTTP_REFERER") = false ∧
  sample_REQUEST !! "referer" = None.
Proof.
  assert (H1 : META Sample.browser_request !! "HTTP_USER_AGENT" = Some "curl/8")
    by reflexivity.
  assert (H2 : "curl/8" ≠ EmptyString) by discriminate.
  assert (H3 : Py.truthy (META Sample.browser_request !! "HTTP_REFERER") = false)
    by reflexivity.
  destruct (X3_request_optional_keys Z Sample.format_5f Sample.environ
              Sample.browser_request Sample.ok 7) as (_ & Hua & Hnoref & _).
  split; [exact H1|]. split; [exact H2|]. split; [exact (Hua "curl/8" H1 H2)|].
  split; [exact H3|exact (Hnoref H3)].
Defined.

(** X4 on a sample: no body, no client address. *)
Lemma X4_witness :
  Py.truthy (META Sample.browser_request !! "CONTENT_LENGTH") = false ∧
  sample_REQUEST !! "requestSize" = Some (Py.Int 0) ∧
  META Sample.browser_request !! REMOTE_IP_HEADER Sample.environ = None ∧
  sample_REQUEST !! "remoteIp" = Some (Py.Str "unknown").
Proof.
  assert (H1 : Py.truthy (META Sample.browser_request !! "CONTENT_LENGTH") = false)
    by reflexivity.
  assert (H2 : META Sample.browser_request !! REMOTE_IP_HEADER Sample.environ = None)
    by reflexivity.
  destruct (X4_request_defaults Z Sample.format_5f Sample.environ
              Sample.browser_request Sample.ok 7) as (Hsize & _ & _ & _ & Hip & _).
  split; [exact H1|]. split; [exact (Hsize H1)|]. split; [exact H2|exact (Hip H2)].
Defined.


(** X6 on a sample: a record at level 5 while one request is served. *)
Lemma X6_witness :
  let w := sample_capturing "t" None (sample_world Sample.self_emit) in
  Forall (λ h, handler_level h = logging.DEBUG) (LOGGER_handlers w) ∧
  5 < logging.DEBUG ∧
  callHandlers Z Sample.wall_clock Sample.environ (logging.mkLogRecord 5 "trace" None None) w =
    (Ok tt, w).
Proof.
  cbv zeta.
  assert (H1 : Forall (λ h, handler_level h = logging.DEBUG)
                 (LOGGER_handlers (sample_capturing "t" None (sample_world Sample.self_emit))))
    by (constructor; [reflexivity|constructor]).
  assert (H2 : 5 < logging.DEBUG) by reflexivity.
  split; [exact H1|]. split; [exact H2|].
  exact (X6_below_debug_is_ignored Z Sample.wall_clock Sample.environ
           (logging.mkLogRecord 5 "trace" None None) _ H1 H2).
Defined.


(** X8 on a sample: the view that logs twice, from the world the import leaves. *)
Lemma X8_witness :
  let w := sample_world Sample.self_emit in
  let run := sample_call_traced Sample.self_emit Sample.info_then_warning
               (Sample.request None) "t" None w in
  LOGGER_handlers w = [] ∧
  USE_X_HTTP_CLOUD_CONTEXT Sample.self_emit = false ∧
  TRANSPORT_PARENT w = Some [] ∧
  run.1 = Ok Sample.ok ∧
  ∃ children parent,
    TRANSPORT_CHILD run.2 = TRANSPORT_CHILD w ++ children ∧
    TRANSPORT_PARENT run.2 = Some ([] ++ [parent]) ∧
    trace parent = full_trace Sample.environ "t" ∧
    span_id parent = None ∧
    Forall (λ e, trace e = trace parent ∧ span_id e = span_id parent) children.
Proof.
  cbv zeta.
  assert (H1 : LOGGER_handlers (sample_world Sample.self_emit) = []) by reflexivity.
  assert (H2 : USE_X_HTTP_CLOUD_CONTEXT Sample.self_emit = false) by reflexivity.
  assert (H3 : TRANSPORT_PARENT (sample_world Sample.self_emit) = Some []) by reflexivity.
  assert (H4 : (sample_call_traced Sample.self_emit Sample.info_then_warning
                  (Sample.request None) "t" None (sample_world Sample.self_emit)).1
               = Ok Sample.ok) by (vm_compute; reflexivity).
  split; [exact H1|]. split; [exact H2|]. split; [exact H3|]. split; [exact H4|].
  exact (X8_children_share_parent_trace Z Z.sub Sample.format_5f Sample.wall_clock
           Sample.environ Sample.self_emit Sample.info_then_warning (Sample.request None)
           "t" None (sample_world Sample.self_emit) [] Sample.ok H1 H2 H3 H4).
Defined.



(** X12 on a sample: a well-formed header in external-propagation mode. *)
Lemma X12_witness :
  let w := sample_world Sample.external in
  sample_derive_trace Sample.external (Sample.request (Some "abc123/456;o=1")) w =
    (Ok ("abc123", Some "456"), w) ∧
  ¬ In "/"%char (list_ascii_of_string "abc123") ∧
  ¬ In "/"%char (list_ascii_of_string "456") ∧
  ¬ In ";"%char (list_ascii_of_string "456").
Proof.
  cbv zeta.
  assert (H : sample_derive_trace Sample.external (Sample.request (Some "abc123/456;o=1"))
                (sample_world Sample.external) =
              (Ok ("abc123", Some "456"), sample_world Sample.external))
    by (vm_compute; reflexivity).
  destruct (X12_trace_id_and_span_hold_no_delimiter Z Sample.random_bits Sample.external
              _ _ _ _ _ H) as (Hid & Hspan).
  split; [exact H|]. split; [exact Hid|]. exact (Hspan "456" eq_refl).
Defined.

(** X13 on a sample: a header that begins with a slash. *)
Lemma X13_witness :
  let w := sample_world Sample.external in
  let request := Sample.request (Some "/456") in
  USE_X_HTTP_CLOUD_CONTEXT Sample.external = true ∧
  META request !! "HTTP_X_CLOUD_TRACE_CONTEXT" = Some "/456" ∧
  "/456" ≠ EmptyString ∧
  sample_derive_trace Sample.external request w = (Ok (EmptyString, Some "456"), w) ∧
  (EmptyString = EmptyString ↔ ∃ rest, "/456" = String "/" rest).
Proof.
  cbv zeta.
  assert (H1 : USE_X_HTTP_CLOUD_CONTEXT Sample.external = true) by reflexivity.
  assert (H2 : META (Sample.request (Some "/456")) !! "HTTP_X_CLOUD_TRACE_CONTEXT"
               = Some "/456") by reflexivity.
  assert (H3 : "/456" ≠ EmptyString) by discriminate.
  assert (H4 : sample_derive_trace Sample.external (Sample.request (Some "/456"))
                 (sample_world Sample.external) =
               (Ok (EmptyString, Some "456"), sample_world Sample.external))
    by (vm_compute; reflexivity).
  split; [exact H1|]. split; [exact H2|]. split; [exact H3|]. split; [exact H4|].
  exact (proj1 (X13_empty_trace_id_from_leading_slash Z Sample.random_bits Sample.external
                  _ _ _ _ _ _ H1 H2 H3 H4)).
Defined.

(** X14 on a sample: the world after the view that logs twice was served. *)
Lemma X14_witness :
  let w := (sample_call Sample.self_emit Sample.info_then_warning (Sample.request None)
              (sample_world Sample.self_emit)).2 in
  reachable Z Z.sub Sample.format_5f Sample.wall_clock Sample.random_bits Sample.environ
    Sample.self_emit w ∧
  Forall (child_shaped Z Sample.environ) (TRANSPORT_CHILD w) ∧
  ∀ queue, TRANSPORT_PARENT w = Some queue → Forall (parent_shaped Z Sample.environ) queue.
Proof.
  cbv zeta.
  assert (H : reachable Z Z.sub Sample.format_5f Sample.wall_clock Sample.random_bits
                Sample.environ Sample.self_emit
                (sample_call Sample.self_emit Sample.info_then_warning (Sample.request None)
                   (sample_world Sample.self_emit)).2)
    by (apply reachable_call, reachable_import).
  destruct (X14_streams_never_mix Z Z.sub Sample.format_5f Sample.wall_clock
              Sample.random_bits Sample.environ Sample.self_emit _ H) as (Hch & Hpq & _).
  split; [exact H|]. split; [exact Hch|exact Hpq].
Defined.

(** X15 on a sample: after one call that raised, one handler is registered. *)
Lemma X15_witness :
  let w := (sample_call Sample.self_emit Sample.raising (Sample.request None)
              (sample_world Sample.self_emit)).2 in
  history Z Z.sub Sample.format_5f Sample.wall_clock Sample.random_bits Sample.environ
    Sample.self_emit 1 w ∧
  length (LOGGER_handlers w) = 1%nat.
Proof.
  cbv zeta.
  assert (H : history Z Z.sub Sample.format_5f Sample.wall_clock Sample.random_bits
                Sample.environ Sample.self_emit 1
                (sample_call Sample.self_emit Sample.raising (Sample.request None)
                   (sample_world Sample.self_emit)).2).
  { exact (history_call Z Z.sub Sample.format_5f Sample.wall_clock Sample.random_bits
             Sample.environ Sample.self_emit Sample.raising (Sample.request None) 0
             (sample_world Sample.self_emit)
             (history_import Z Z.sub Sample.format_5f Sample.wall_clock
                Sample.random_bits Sample.environ Sample.self_emit)). }
  split; [exact H|].
  exact (X15_one_handler_left_per_raising_call Z Z.sub Sample.format_5f Sample.wall_clock
           Sample.random_bits Sample.environ Sample.self_emit 1 _ H).
Defined.

(** X16 on a sample: the raising view, from the world the import leaves. *)
Lemma X16_witness :
  let w := sample_world Sample.self_emit in
  reachable Z Z.sub Sample.format_5f Sample.wall_clock Sample.random_bits Sample.environ
    Sample.self_emit w ∧
  sample_derive_trace Sample.self_emit (Sample.request None) w =
    (Ok ("dkry6cjqx5bipw4ahov30gnu29fmt18e", None), set_draws 32 w) ∧
  (sample_call Sample.self_emit Sample.raising (Sample.request None) w).1 =
    Raised (Py.AppError "boom").
Proof.
  cbv zeta.
  assert (H1 : reachable Z Z.sub Sample.format_5f Sample.wall_clock Sample.random_bits
                 Sample.environ Sample.self_emit (sample_world Sample.self_emit))
    by apply reachable_import.
  assert (H2 : sample_derive_trace Sample.self_emit (Sample.request None)
                 (sample_world Sample.self_emit) =
               (Ok ("dkry6cjqx5bipw4ahov30gnu29fmt18e", None),
                set_draws 32 (sample_world Sample.self_emit)))
    by (vm_compute; reflexivity).
  split; [exact H1|]. split; [exact H2|].
  rewrite (X16_call_outcome_is_downstream_outcome Z Z.sub Sample.format_5f
             Sample.wall_clock Sample.random_bits Sample.environ Sample.self_emit
             Sample.raising (Sample.request None) _ _ _ _ H1 H2).
  vm_compute. reflexivity.
Defined.

(** ** The revisited claims on sample requests *)

(** C5, counterexample. A first request logs at INFO and raises, which
    leaves INFO in [MLOGLEVELS]. A second request logs nothing (the child
    transport is as the first left it) and answers 503. Its parent entry is
    sent at INFO, where the status alone gives ERROR. *)
Lemma C5_counterexample_after_raising_request :
  let w1 := (sample_call Sample.self_emit Sample.raising (Sample.request None)
               (sample_world Sample.self_emit)).2 in
  let unavailable := mkResponse 503 ∅ in
  let run := sample_call Sample.self_emit (λ _, Respond unavailable)
               (Sample.request None) w1 in
  MLOGLEVELS w1 = ["INFO"] ∧
  run.1 = Ok unavailable ∧
  TRANSPORT_CHILD run.2 = TRANSPORT_CHILD w1 ∧
  fmap (M:=list) severity <$> TRANSPORT_PARENT run.2 = Some ["INFO"] ∧
  parent_severity [] unavailable = Ok "ERROR".
Proof. vm_compute. repeat split; reflexivity. Qed.

(** C6 on a sample: records at DEBUG, INFO and WARNING in external-propagation
    mode, from the world the import leaves; INFO and WARNING are tracked and
    forwarded, and the parent transport stays as it was. *)
Lemma C6_witness :
  let w := sample_world Sample.external in
  let chain := λ _ : Request, logs Sample.records (Respond Sample.ok) in
  let run := sample_call_traced Sample.external chain (Sample.request None) "t" None w in
  USE_X_HTTP_CLOUD_CONTEXT Sample.external = true ∧
  USE_X_HTTP_CLOUD_CONTEXT Sample.self_emit = false ∧
  LOGGER_handlers w = [] ∧
  TRANSPORT_PARENT (sample_call Sample.external chain (Sample.request None) w).2 =
    TRANSPORT_PARENT w ∧
  ∃ w2 new,
    get_response Z Sample.wall_clock Sample.environ (chain (Sample.request None))
      (sample_capturing "t" None w) = (Ok Sample.ok, w2) ∧
    MLOGLEVELS w2 = ["INFO"; "WARNING"] ∧
    severity <$> new = ["INFO"; "WARNING"] ∧
    run.1 = Ok Sample.ok ∧
    MLOGLEVELS run.2 = [] ∧
    TRANSPORT_CHILD run.2 = TRANSPORT_CHILD w ++ new.
Proof.
  cbv zeta.
  assert (H1 : USE_X_HTTP_CLOUD_CONTEXT Sample.external = true) by reflexivity.
  assert (H2 : USE_X_HTTP_CLOUD_CONTEXT Sample.self_emit = false) by reflexivity.
  assert (H3 : LOGGER_handlers (sample_world Sample.external) = []) by reflexivity.
  destruct (C6_external_mode_registers_tracks_sends_no_parent Z Z.sub Sample.format_5f
              Sample.wall_clock Sample.random_bits Sample.environ Sample.external
              Sample.self_emit (λ _, logs Sample.records (Respond Sample.ok))
              (Sample.request None) (sample_world Sample.external) H1 H2)
    as (Hparent & _ & Htrack & _).
  destruct (Htrack "t" None Sample.records Sample.ok H3 eq_refl)
    as (w2 & new & Hdown & Hlevels & _ & _ & Hsev & _ & Hok & _ & Hreset & Hchild & _).
  split; [exact H1|]. split; [exact H2|]. split; [exact H3|]. split; [exact Hparent|].
  exists w2, new.
  split; [exact Hdown|]. split; [exact Hlevels|]. split; [exact Hsev|].
  split; [exact Hok|]. split; [exact Hreset|exact Hchild].
Defined.

(** C7. A record at level 25 reaches the handler of a request while the
    logger is at INFO: the level is above the logger's and passes the
    handler's, yet [emit] raises [AttributeError] on the name ["Level 25"],
    nothing is appended to [MLOGLEVELS] and nothing is sent to the child
    transport; the request that logs it raises the same error. A record at
    WARNING in the same world is tracked and forwarded. *)
Theorem C7_emit_raises_at_unnamed_level :
  let w := sample_capturing "t" None (sample_world Sample.self_emit) in
  let self := request_handler Z Sample.environ "t" None (sample_world Sample.self_emit) in
  let odd := logging.mkLogRecord 25 "odd" None None in
  LOGGER_handlers w = [self] ∧
  LOGGER_level w ≤ logging.levelno odd ∧
  handler_level self ≤ logging.levelno odd ∧
  sample_emit self odd w = (Raised (Py.AttributeError "Level 25"), w) ∧
  (sample_call Sample.self_emit (λ _, Log odd (Respond Sample.ok)) (Sample.request None)
     (sample_world Sample.self_emit)).1 = Raised (Py.AttributeError "Level 25") ∧
  MLOGLEVELS (sample_emit self (Severity.record Severity.WARNING "slow") w).2 = ["WARNING"].
Proof.
  vm_compute. repeat split; try reflexivity; discriminate.
Qed.
